(** * A shallow embedding of [scraper.py]

    The scraper fetches one page per Pokémon ID, walks the parsed page with
    BeautifulSoup queries and assembles a record per ID.  The embedding has
    four layers:

    - [PyStr]: the Python [str] and [int] operations the source calls;
    - [Soup]: the fragment of BeautifulSoup's tree and of its search
      methods that the source uses, over an explicit tree of nodes in which
      a tag is referred to by its position in the document;
    - the effect monad [M]: a trace of observable events (HTTP requests, log
      records, console output, file writes) together with an outcome that is
      a value, a raised exception or a [SystemExit];
    - the functions of the source, under their own names. *)

From Stdlib Require Import ZArith Ascii DecimalString.
From stdpp Require Import base option list gmap strings.

Set Warnings "-register-all".

Open Scope string_scope.
Open Scope list_scope.
Open Scope Z_scope.

(** ** Python strings and integers *)

Module PyStr.

(** Python strings are sequences of code points; the embedding keeps the
    code points below 256, one [ascii] each. *)

Definition char (c : ascii) : string := String c EmptyString.

(** The literals of the source that need an escape in Python. *)
Definition quote : string := char (Ascii.ascii_of_nat 34).
Definition legacy_delimiter : string :=
  String (Ascii.ascii_of_nat 13) (String (Ascii.ascii_of_nat 10)
    (String (Ascii.ascii_of_nat 9) (String (Ascii.ascii_of_nat 9)
      (String (Ascii.ascii_of_nat 9) EmptyString)))).

(** [sub in s] *)
Fixpoint contains (sub s : string) : bool :=
  String.prefix sub s ||
  match s with
  | EmptyString => false
  | String _ s' => contains sub s'
  end.

(** [s.split(sep)] for a non-empty [sep] (Python raises [ValueError] on an
    empty one; every separator in the source is a non-empty literal).
    [skip] counts the characters of a separator that is being stepped
    over. *)
Fixpoint split_go (sep s : string) (skip : nat) : list string :=
  match s with
  | EmptyString => [EmptyString]
  | String c s' =>
    match skip with
    | S k => split_go sep s' k
    | O =>
      if String.prefix sep s
      then EmptyString :: split_go sep s' (String.length sep - 1)
      else match split_go sep s' 0 with
           | t :: ts => String c t :: ts
           | [] => [char c]
           end
    end
  end.

Definition split (sep s : string) : list string := split_go sep s 0.

(** [s.replace(old, new)] for a non-empty [old]. *)
Fixpoint replace_go (old new s : string) (skip : nat) : string :=
  match s with
  | EmptyString => EmptyString
  | String c s' =>
    match skip with
    | S k => replace_go old new s' k
    | O =>
      if String.prefix old s
      then new +:+ replace_go old new s' (String.length old - 1)
      else String c (replace_go old new s' 0)
    end
  end.

Definition replace (old new s : string) : string := replace_go old new s 0.

(** [sep.join(l)] *)
Fixpoint join (sep : string) (l : list string) : string :=
  match l with
  | [] => EmptyString
  | [s] => s
  | s :: l' => s +:+ sep +:+ join sep l'
  end.

(** The characters [str.strip()] removes: the code points below 256 for
    which [str.isspace()] holds. *)
Definition is_space (c : ascii) : bool :=
  let n := Ascii.nat_of_ascii c in
  ((9 <=? n)%nat && (n <=? 13)%nat) || ((28 <=? n)%nat && (n <=? 32)%nat)
  || (n =? 133)%nat || (n =? 160)%nat.

Fixpoint lstrip (s : string) : string :=
  match s with
  | EmptyString => EmptyString
  | String c s' => if is_space c then lstrip s' else s
  end.

Fixpoint rstrip (s : string) : string :=
  match s with
  | EmptyString => EmptyString
  | String c s' =>
    match rstrip s' with
    | EmptyString => if is_space c then EmptyString else char c
    | r => String c r
    end
  end.

Definition strip (s : string) : string := rstrip (lstrip s).

(** [str(n)] for an [int]. *)
Definition str (n : Z) : string := NilZero.string_of_int (Z.to_int n).

Fixpoint zeros (n : nat) : string :=
  match n with
  | O => EmptyString
  | S k => String "0" (zeros k)
  end.

(** [s.zfill(width)]: a leading sign stays in front of the padding. *)
Definition zfill (width : nat) (s : string) : string :=
  let pad := zeros (width - String.length s) in
  match s with
  | String c s' =>
    if (Ascii.eqb c "+" || Ascii.eqb c "-")%bool
    then String c (pad +:+ s')
    else pad +:+ s
  | EmptyString => pad
  end.

(** [int(s)], as CPython reads a decimal literal: it steps over leading
    whitespace, takes one optional sign, reads decimal digits in which
    single underscores may separate digits, refuses more than
    [int_max_str_digits] digits, steps over trailing whitespace and must then
    be at the end of the text.  [None] stands for [ValueError].

    The whitespace [int] steps over is narrower than what [str.strip()]
    removes: of the code points below 256 it is the ASCII whitespace (9 to
    13 and 32) and the two Unicode spaces U+0085 and U+00A0; the separators
    U+001C to U+001F, which [str.isspace()] accepts, make [int] fail. *)
Definition is_int_space (c : ascii) : bool :=
  let n := Ascii.nat_of_ascii c in
  ((9 <=? n)%nat && (n <=? 13)%nat) || (n =? 32)%nat
  || (n =? 133)%nat || (n =? 160)%nat.

Fixpoint skip_int_space (s : string) : string :=
  match s with
  | EmptyString => EmptyString
  | String c s' => if is_int_space c then skip_int_space s' else s
  end.

Definition digit (c : ascii) : option Z :=
  let n := Ascii.nat_of_ascii c in
  if ((48 <=? n) && (n <=? 57))%nat then Some (Z.of_nat (n - 48)) else None.

(** The digits of the literal: their value, how many they are, and the
    text that follows them.  An underscore must stand between two digits. *)
Fixpoint digits_go (s : string) (acc count : Z) (after_digit : bool)
  : option (Z * Z * string) :=
  match s with
  | EmptyString => if after_digit then Some (acc, count, s) else None
  | String c s' =>
    match digit c with
    | Some d => digits_go s' (10 * acc + d) (count + 1) true
    | None =>
      if after_digit
      then if Ascii.eqb c "_" then digits_go s' acc count false
           else Some (acc, count, s)
      else None
    end
  end.

(** The default of [sys.get_int_max_str_digits()]: leading zeros count,
    the sign and the underscores do not. *)
Definition int_max_str_digits : Z := 4300.

Definition int (s : string) : option Z :=
  let s := skip_int_space s in
  let signed :=
    match s with
    | String c s' =>
      if Ascii.eqb c "-" then (Z.opp, s')
      else if Ascii.eqb c "+" then (id, s')
      else (id, s)
    | EmptyString => (id, s)
    end in
  match digits_go (snd signed) 0 0 false with
  | Some (z, count, rest) =>
    if int_max_str_digits <? count then None
    else match skip_int_space rest with
         | EmptyString => Some (fst signed z)
         | String _ _ => None
         end
  | None => None
  end.

End PyStr.

(** ** The BeautifulSoup fragment *)

Module Soup.

(** An attribute value is a string, or for the multi-valued attributes of
    HTML ([class], [rel], ...) the list of its whitespace-separated parts. *)
Inductive attr_value :=
| AttrStr (s : string)
| AttrList (l : list string).

(** A parsed document.  [NavigableString] is the text that [.text] collects;
    [Comment] stands for the string classes that [.text] leaves out of a
    [td] or [tr] (comments, declarations, the contents of scripts) but that
    [.string] still returns. *)
Inductive node :=
| NavigableString (s : string)
| Comment (s : string)
| Tag (name : string) (attrs : gmap string attr_value) (contents : list node).

(** A Python reference to a node of the tree: the node and where it sits,
    as the list of child indices from the root.  The position is what
    [find_parent], [find_next_siblings] and [find_next] navigate from. *)
Definition path := list nat.

Record element := Element { loc : path; obj : node }.

(** The [BeautifulSoup] object itself. *)
Definition root (soup : node) : element := Element [] soup.

(** [tag.text] *)
Fixpoint text (n : node) : string :=
  match n with
  | NavigableString s => s
  | Comment _ => EmptyString
  | Tag _ _ cs =>
    (fix go (l : list node) : string :=
       match l with
       | [] => EmptyString
       | c :: l' => text c +:+ go l'
       end) cs
  end.

(** [tag.string]: defined when the tag has exactly one child, which is a
    string or a tag that has a [.string] itself. *)
Fixpoint string_of (n : node) : option string :=
  match n with
  | NavigableString s => Some s
  | Comment s => Some s
  | Tag _ _ [c] => string_of c
  | Tag _ _ _ => None
  end.

Definition contents_of (n : node) : list node :=
  match n with
  | Tag _ _ cs => cs
  | _ => []
  end.

(** [f i c] over the children [c] of a tag, [i] counting from [start]. *)
Definition over_children {A} (f : nat -> node -> list A)
  : nat -> list node -> list A :=
  fix go (i : nat) (l : list node) : list A :=
    match l with
    | [] => []
    | c :: l' => f i c ++ go (S i) l'
    end.

(** [tag.descendants]: every node below [n] in document order, [n] itself
    sitting at [p]. *)
Fixpoint descendants (p : path) (n : node) : list element :=
  match n with
  | Tag _ _ cs =>
    over_children
      (fun i c => Element (p ++ [i]) c :: descendants (p ++ [i]) c) 0%nat cs
  | _ => []
  end.

(** *** Match rules *)

Definition is_tag (nm : string) (n : node) : bool :=
  match n with
  | Tag nm' _ _ => String.eqb nm' nm
  | _ => false
  end.

(** A multi-valued attribute matches when one of its parts does, or when
    the parts joined by spaces do. *)
Definition attr_matches (v : attr_value) (want : string) : bool :=
  match v with
  | AttrStr s => String.eqb s want
  | AttrList l =>
    existsb (fun s => String.eqb s want) l || String.eqb (PyStr.join " " l) want
  end.

Definition has_attr (k want : string) (n : node) : bool :=
  match n with
  | Tag _ attrs _ =>
    match attrs !! k with
    | Some v => attr_matches v want
    | None => false
    end
  | _ => false
  end.

(** [string='...']: the tag's [.string] is exactly the given text. *)
Definition string_is (want : string) (n : node) : bool :=
  match string_of n with
  | Some s => String.eqb s want
  | None => false
  end.

(** [string=re.compile(lit + ".*")]: [search] finds the pattern in the tag's
    [.string] exactly when the literal occurs in it, the trailing [.*]
    matching the empty string. *)
Definition string_search (lit : string) (n : node) : bool :=
  match string_of n with
  | Some s => PyStr.contains lit s
  | None => false
  end.

(** *** Searches *)

Definition find_all (e : element) (crit : node -> bool) : list element :=
  List.filter (fun x => crit (obj x)) (descendants (loc e) (obj e)).

Definition find (e : element) (crit : node -> bool) : option element :=
  head (find_all e crit).

(** [tag.parents], nearest first: the nodes passed on the way from the root
    of [soup] down to the position [p]. *)
Fixpoint parents_go (n : node) (here p : path) (acc : list element)
  : list element :=
  match p with
  | [] => acc
  | i :: p' =>
    match contents_of n !! i with
    | Some c => parents_go c (here ++ [i]) p' (Element here n :: acc)
    | None => acc
    end
  end.

Definition parents (soup : node) (e : element) : list element :=
  parents_go soup [] (loc e) [].

Definition find_parent (soup : node) (e : element) (crit : node -> bool)
  : option element :=
  head (List.filter (fun x => crit (obj x)) (parents soup e)).

(** [tag.next_siblings] *)
Definition next_siblings (soup : node) (e : element) : list element :=
  match parents soup e, last (loc e) with
  | par :: _, Some i =>
    over_children (fun j c => [Element (loc par ++ [j]) c]) (S i)
      (drop (S i) (contents_of (obj par)))
  | _, _ => []
  end.

Definition find_next_siblings (soup : node) (e : element)
  (crit : node -> bool) : list element :=
  List.filter (fun x => crit (obj x)) (next_siblings soup e).

(** [tag.next_elements]: whatever comes after the tag in document order,
    its own descendants first. *)
Fixpoint after (p : path) (l : list element) : list element :=
  match l with
  | [] => []
  | x :: l' => if decide (loc x = p) then l' else after p l'
  end.

Definition next_elements (soup : node) (e : element) : list element :=
  after (loc e) (root soup :: descendants [] soup).

Definition find_next (soup : node) (e : element) (crit : node -> bool)
  : option element :=
  head (List.filter (fun x => crit (obj x)) (next_elements soup e)).

End Soup.

(** ** Records, events and the effect monad *)

(** The dictionary [extracted_pokemon]: its keys are fixed, so it is a
    record. *)
Record pokemon := Pokemon {
  name : string;
  number : string;
  classification : string;
  height : list string;
  weight : list string;
  hit_points : Z;
  abilities : list string;
  attack : Z;
  defense : Z;
  special : Z;
  speed : Z;
  level_up_moves : list string;
  tm_hm_moves : list string;
  egg_moves : list string
}.

(** The exceptions the program can meet.  [AttributeError] carries the
    attribute that was looked up on [None]; [ValueError] carries the text
    [int] rejected, which decides its message; [RequestException] is
    whatever [requests.get] raises. *)
Inductive exn :=
| IndexError
| AttributeError (attr : string)
| ValueError (literal : string)
| RequestException.

Inductive level := INFO | ERROR.

(** What a run does to the outside world, in the order it does it. *)
Inductive event :=
| EvGet (url : string)                       (* requests.get(url) *)
| EvLog (lvl : level) (msg : string)         (* logging.info / logging.error *)
| EvLogExn (ex : exn)                        (* logging.error(ex) *)
| EvDisplay (data : pokemon)                 (* the prints of display_formatted *)
| EvWrite (file : string) (data : list pokemon). (* open(file, 'w') and json.dump *)

Inductive outcome (A : Type) :=
| Return (a : A)
| Raise (ex : exn)
| SystemExit (code : option Z).

Arguments Return {A} a.
Arguments Raise {A} ex.
Arguments SystemExit {A} code.

Definition M (A : Type) : Type := list event * outcome A.

Definition ret {A} (a : A) : M A := ([], Return a).
Definition raise {A} (ex : exn) : M A := ([], Raise ex).
Definition emit (ev : event) : M unit := ([ev], Return tt).

Definition bind {A B} (m : M A) (k : A -> M B) : M B :=
  match m with
  | (t, Return a) => let (t', o) := k a in (t ++ t', o)
  | (t, Raise ex) => (t, Raise ex)
  | (t, SystemExit c) => (t, SystemExit c)
  end.

Notation "x <- m ;; k" := (bind m (fun x => k))
  (at level 20, m at level 99, k at level 200, only parsing).
Notation "m ;;; k" := (bind m (fun _ => k))
  (at level 20, k at level 200, only parsing).

(** [try: body except <class>: handler]: [catches] tells which exceptions
    the clause names.  A [SystemExit] is no [Exception] and passes
    through. *)
Definition try_except {A} (body : M A) (catches : exn -> bool)
  (handler : exn -> M A) : M A :=
  match body with
  | (t, Raise ex) =>
    if catches ex then let (t', o) := handler ex in (t ++ t', o)
    else (t, Raise ex)
  | r => r
  end.

Definition any_exception (ex : exn) : bool := true.

Definition is_attribute_error (ex : exn) : bool :=
  match ex with
  | AttributeError _ => true
  | _ => false
  end.

(** [l[i]] *)
Definition subscript {A} (l : list A) (i : nat) : M A :=
  match l !! i with
  | Some x => ret x
  | None => raise IndexError
  end.

(** [o.attr] where [o] may be [None]. *)
Definition getattr {A} (o : option A) (attr : string) : M A :=
  match o with
  | Some x => ret x
  | None => raise (AttributeError attr)
  end.

(** The status the interpreter hands back to the shell: an exception that
    reaches the top level gives 1, [SystemExit(None)] gives 0. *)
Definition exit_status {A} (o : outcome A) : Z :=
  match o with
  | Return _ => 0
  | Raise _ => 1
  | SystemExit None => 0
  | SystemExit (Some c) => c
  end.

(** A computation that leaves no trace and does not exit: the searches and
    conversions between the effects are of this kind. *)
Definition quiet {A} (m : M A) : Prop :=
  fst m = [] /\ forall c, snd m <> SystemExit c.

Definition logging_info (msg : string) : M unit := emit (EvLog INFO msg).
Definition logging_error (msg : string) : M unit := emit (EvLog ERROR msg).

(** The builtin [exit()]. *)
Definition exit {A} : M A := ([], SystemExit None).

(** The web as the program meets it: what [requests.get] followed by
    [bs4.BeautifulSoup(data.text, 'html.parser')] gives for a URL. *)
Inductive response :=
| ConnectionFailed
| Page (soup : Soup.node).

Definition requests_get (web : string -> response) (url : string)
  : M Soup.node :=
  emit (EvGet url) ;;;
  match web url with
  | ConnectionFailed => raise RequestException
  | Page soup => ret soup
  end.

(** ** The functions of [scraper.py] *)

Import Soup.

Definition OUTPUT_FILE : string := "pokemon.json".

(** The word the log messages spell with U+00E9. *)
Definition Pokemon_word : string :=
  "Pok" +:+ String (Ascii.ascii_of_nat 233) "mon".

(** The namespace [setup_arg_parser] returns. *)
Record arguments := Arguments {
  save : bool;
  first : Z;
  last : Z;
  verbose : bool
}.

(** *** The search criteria [extract_statistics] passes to BeautifulSoup *)

Definition div_center (n : node) : bool :=
  is_tag "div" n && has_attr "align" "center" n.

Definition td_fooinfo (n : node) : bool :=
  is_tag "td" n && has_attr "class" "fooinfo" n.

Definition td_standard (n : node) : bool :=
  is_tag "td" n && string_is "Standard" n.

Definition td_base_stats (n : node) : bool :=
  is_tag "td" n && string_search "Base Stats - Total" n.

Definition a_named (nm : string) (n : node) : bool :=
  is_tag "a" n && has_attr "name" nm n.

Definition table_dextable (n : node) : bool :=
  is_tag "table" n && has_attr "class" "dextable" n.

(** *** Height and weight (lines 65 to 70) *)

Definition height_weight (soup : node) (center_panel_info : list element)
  : M (list string * list string) :=
  cell6 <- subscript center_panel_info 6 ;;
  let height := PyStr.split PyStr.legacy_delimiter (text (obj cell6)) in
  cell7 <- subscript center_panel_info 7 ;;
  let weight := PyStr.split PyStr.legacy_delimiter (text (obj cell7)) in
  match find cell6 td_standard with
  | Some std6 =>
    next6 <- getattr (find_next soup std6 (is_tag "td")) "text" ;;
    let height :=
      PyStr.split " " (PyStr.replace PyStr.quote (PyStr.quote +:+ " ") (text (obj next6))) in
    std7 <- getattr (find cell7 td_standard) "findNext" ;;
    next7 <- getattr (find_next soup std7 (is_tag "td")) "text" ;;
    let weight :=
      PyStr.split " " (PyStr.replace "lbs" "lbs " (text (obj next7))) in
    ret (height, weight)
  | None => ret (height, weight)
  end.

(** *** The move tables (lines 75 to 110) *)

(** [soup.find('a', {'name': anchor}).find_parent('table')] *)
Definition anchor_table (soup : node) (anchor : string)
  : M (option element) :=
  a <- getattr (find (root soup) (a_named anchor)) "find_parent" ;;
  ret (find_parent soup a (is_tag "table")).

(** The loop over the rows of the level-up table, and the same loop over
    the TM/HM table: a row with two cells or more appends
    ["<first>: <second>"]. *)
Fixpoint pair_rows (rows : list element) (moves : list string)
  : list string :=
  match rows with
  | [] => moves
  | row :: rows' =>
    match find_all row (is_tag "td") with
    | c0 :: c1 :: _ =>
      let level := PyStr.strip (text (obj c0)) in
      let move := PyStr.strip (text (obj c1)) in
      pair_rows rows' (moves ++ [level +:+ ": " +:+ move])
    | _ => pair_rows rows' moves
    end
  end.

(** The loop over the rows of the egg-move table. *)
Fixpoint egg_rows (rows : list element) (moves : list string)
  : list string :=
  match rows with
  | [] => moves
  | row :: rows' =>
    match find_all row (is_tag "td") with
    | c0 :: _ :: _ => egg_rows rows' (moves ++ [PyStr.strip (text (obj c0))])
    | _ => egg_rows rows' moves
    end
  end.

(** A [Tag] is always true in a condition; only [None] takes the other
    branch of [if table:]. *)
Definition table_rows (table : option element) : list element :=
  match table with
  | Some t => drop 2 (find_all t (is_tag "tr"))
  | None => []
  end.

Definition extract_level_up_moves (soup : node) : M (list string) :=
  standard_level_table <- anchor_table soup "standardlevel" ;;
  ret (pair_rows (table_rows standard_level_table) []).

Definition extract_tm_hm_moves (soup : node) : M (list string) :=
  tm_hm_table <- anchor_table soup "tmhm" ;;
  ret (pair_rows (table_rows tm_hm_table) []).

Definition extract_egg_moves (soup : node) : M (list string) :=
  egg_table <- try_except (anchor_table soup "eggmoves") is_attribute_error
                 (fun _ => ret None) ;;
  ret (egg_rows (table_rows egg_table) []).

(** *** Abilities (lines 113 to 124) *)

Fixpoint ability_cells (cells : list element) (abilities : list string)
  : list string :=
  match cells with
  | [] => abilities
  | cell :: cells' =>
    ability_cells cells'
      (abilities ++
       [if PyStr.contains "Hidden Ability" (text (obj cell))
        then PyStr.strip (text (obj cell)) +:+ " (Hidden)"
        else PyStr.strip (text (obj cell))])
  end.

Fixpoint ability_rows (rows : list element) (abilities : list string)
  : list string :=
  match rows with
  | [] => abilities
  | row :: rows' =>
    ability_rows rows'
      (if PyStr.contains "Abilities" (text (obj row))
       then ability_cells (find_all row (is_tag "td")) abilities
       else abilities)
  end.

Definition extract_abilities (soup : node) : list string :=
  match find (root soup) table_dextable with
  | Some abilities_table =>
    ability_rows (find_all abilities_table (is_tag "tr")) []
  | None => []
  end.

(** *** [extract_statistics] *)

(** The local variables the [try] block leaves behind. *)
Record identified := Identified {
  center_panel_info : list element;
  id_height : list string;
  id_weight : list string;
  base_stats_td : list element;
  id_level_up_moves : list string;
  id_tm_hm_moves : list string;
  id_egg_moves : list string;
  id_abilities : list string
}.

(** The body of the [try] block. *)
Definition identify (soup : node) : M identified :=
  let all_divs := find_all (root soup) div_center in
  div1 <- subscript all_divs 1 ;;
  let center_panel_info := find_all div1 td_fooinfo in
  hw <- height_weight soup center_panel_info ;;
  total <- getattr (find div1 td_base_stats) "find_next_siblings" ;;
  let base_stats_td := find_next_siblings soup total (is_tag "td") in
  level_up_moves <- extract_level_up_moves soup ;;
  tm_hm_moves <- extract_tm_hm_moves soup ;;
  egg_moves <- extract_egg_moves soup ;;
  let abilities := extract_abilities soup in
  ret (Identified center_panel_info (fst hw) (snd hw) base_stats_td
         level_up_moves tm_hm_moves egg_moves abilities).

Definition page_url (poke_id : Z) : string :=
  "https://serebii.net/pokedex-sv/" +:+ PyStr.zfill 3 (PyStr.str poke_id)
  +:+ ".shtml".

Definition identify_error (url : string) : string :=
  "There was an error trying to identify HTML elements on the webpage. URL: "
  +:+ url.

(** [int(cells[i].text)] *)
Definition int_cell (cells : list element) (i : nat) : M Z :=
  cell <- subscript cells i ;;
  match PyStr.int (text (obj cell)) with
  | Some z => ret z
  | None => raise (ValueError (text (obj cell)))
  end.

(** The dictionary literal that ends [extract_statistics]: it runs outside
    the [try] block. *)
Definition assemble (poke_id : Z) (found : identified) : M pokemon :=
  name_cell <- subscript (center_panel_info found) 1 ;;
  classification_cell <- subscript (center_panel_info found) 5 ;;
  hit_points <- int_cell (base_stats_td found) 0 ;;
  attack <- int_cell (base_stats_td found) 1 ;;
  defense <- int_cell (base_stats_td found) 2 ;;
  special <- int_cell (base_stats_td found) 3 ;;
  speed <- int_cell (base_stats_td found) 4 ;;
  ret {| name := text (obj name_cell);
         number := "#" +:+ PyStr.zfill 3 (PyStr.str poke_id);
         classification := text (obj classification_cell);
         height := id_height found;
         weight := id_weight found;
         hit_points := hit_points;
         abilities := id_abilities found;
         attack := attack;
         defense := defense;
         special := special;
         speed := speed;
         level_up_moves := id_level_up_moves found;
         tm_hm_moves := id_tm_hm_moves found;
         egg_moves := id_egg_moves found |}.

Section Scraper.

Variable web : string -> response.

Definition extract_statistics (poke_id : Z) : M pokemon :=
  let url := page_url poke_id in
  soup <- requests_get web url ;;
  found <- try_except (identify soup) any_exception
             (fun ex => logging_error (identify_error url) ;;; raise ex) ;;
  assemble poke_id found.

Definition display_formatted (poke_object : pokemon) : M unit :=
  emit (EvDisplay poke_object).

Definition save_to_json (data : list pokemon) : M unit :=
  emit (EvWrite OUTPUT_FILE data).

(** [range(first_id, last_id + 1)] *)
Definition id_range (first_id last_id : Z) : list Z :=
  seqZ first_id (last_id + 1 - first_id).

(** The [for] loop of [scrape_pokemon], [data_list] being the list built
    so far. *)
Fixpoint scrape_loop (args : arguments) (ids : list Z)
  (data_list : list pokemon) : M (list pokemon) :=
  match ids with
  | [] => ret data_list
  | poke_id :: ids' =>
    data <- extract_statistics poke_id ;;
    let data_list := data_list ++ [data] in
    (if verbose args || negb (save args)
     then display_formatted data
     else logging_info ("Scraped " +:+ number data +:+ " " +:+ name data)) ;;;
    scrape_loop args ids' data_list
  end.

Definition scrape_pokemon (first_id last_id : Z) (args : arguments)
  : M unit :=
  data_list <- scrape_loop args (id_range first_id last_id) [] ;;
  if save args
  then logging_info ("Saving to " +:+ OUTPUT_FILE) ;;; save_to_json data_list
  else logging_info ("All " +:+ Pokemon_word
                     +:+ " retrieved! To save to JSON, use the --save flag").

Definition validate_input (first_id_input last_id_input : Z) : M (Z * Z) :=
  (if (1026 <=? first_id_input) || (1026 <=? last_id_input)
   then logging_error ("Error: This " +:+ Pokemon_word
                       +:+ " is not yet supported!") ;;; exit
   else ret tt) ;;;
  let last_id_input :=
    if last_id_input <? first_id_input then first_id_input
    else last_id_input in
  ret (first_id_input, last_id_input).

(** The [__main__] block, [args] being what [setup_arg_parser] returned. *)
Definition main (args : arguments) : M unit :=
  try_except
    (logging_info "Extracting data from Serebii.net" ;;;
     ids <- validate_input (first args) (last args) ;;
     scrape_pokemon (fst ids) (snd ids) args)
    any_exception
    (fun ex => emit (EvLogExn ex) ;;; raise ex).

End Scraper.

(** ** What a run shows, and the properties in the words of the specification *)

(** The URLs requested, the records printed on the console and the batches
    written to the output file, each in the order of the trace. *)
Definition fetched (t : list event) : list string :=
  omap (fun ev => match ev with EvGet url => Some url | _ => None end) t.

Definition displayed (t : list event) : list pokemon :=
  omap (fun ev => match ev with EvDisplay d => Some d | _ => None end) t.

Definition written (t : list event) : list (list pokemon) :=
  omap (fun ev => match ev with EvWrite _ d => Some d | _ => None end) t.

(** The two output paths of a run. *)
Definition console_effect (t : list event) : Prop := displayed t <> [].
Definition json_effect (t : list event) : Prop := written t <> [].

(** Extraction of [poke_id] succeeds with [data]. *)
Definition extracts (web : string -> response) (poke_id : Z) (data : pokemon)
  : Prop :=
  snd (extract_statistics web poke_id) = Return data.

(** What one iteration of the loop of [scrape_pokemon] leaves in the trace
    once extraction has returned [data]. *)
Definition report (args : arguments) (data : pokemon) : event :=
  if verbose args || negb (save args)
  then EvDisplay data
  else EvLog INFO ("Scraped " +:+ number data +:+ " " +:+ name data).

Fixpoint success_trace (args : arguments) (ids : list Z) (rs : list pokemon)
  : list event :=
  match ids, rs with
  | poke_id :: ids', data :: rs' =>
    EvGet (page_url poke_id) :: report args data :: success_trace args ids' rs'
  | _, _ => []
  end.

(** What [scrape_pokemon] does after the loop, [data_list] holding the
    records of the whole range. *)
Definition closing (args : arguments) (data_list : list pokemon)
  : list event :=
  if save args
  then [EvLog INFO ("Saving to " +:+ OUTPUT_FILE); EvWrite OUTPUT_FILE data_list]
  else [EvLog INFO ("All " +:+ Pokemon_word
                    +:+ " retrieved! To save to JSON, use the --save flag")].

(** The trace of an extraction that raises: the request, then the error
    records, if any. *)
Definition failure_trace (poke_id : Z) (logs : list string) : list event :=
  EvGet (page_url poke_id) :: map (EvLog ERROR) logs.

(** The two records [main] and [validate_input] log. *)
Definition start_record : event :=
  EvLog INFO "Extracting data from Serebii.net".

Definition unsupported_record : event :=
  EvLog ERROR ("Error: This " +:+ Pokemon_word +:+ " is not yet supported!").

(** The IDs a run with valid arguments goes through: [validate_input] has
    raised a last ID below the first one. *)
Definition run_ids (args : arguments) : list Z :=
  id_range (first args)
    (if last args <? first args then first args else last args).

(** "Mutually exclusive in effect": the two output paths do not both take
    effect in the run that left the trace [t]. *)
Definition exclusive_in_effect (t : list event) : Prop :=
  ~ (console_effect t /\ json_effect t).

(** The normalisation of the height text, character by character: a space
    put after each quote character, as the source does, and a space put
    before it. *)
Fixpoint space_after_quote (s : string) : string :=
  match s with
  | EmptyString => EmptyString
  | String c s' =>
    if Ascii.eqb c (Ascii.ascii_of_nat 34)
    then String c (String " " (space_after_quote s'))
    else String c (space_after_quote s')
  end.

Fixpoint space_before_quote (s : string) : string :=
  match s with
  | EmptyString => EmptyString
  | String c s' =>
    if Ascii.eqb c (Ascii.ascii_of_nat 34)
    then String " " (String c (space_before_quote s'))
    else String c (space_before_quote s')
  end.

(** The level-up moves in the words of the specification: of the rows after
    the first two, those with at least two cells, each giving
    ["<level>: <move>"] from its cells 0 and 1. *)
Definition cells (row : element) : list element :=
  find_all row (is_tag "td").

Definition cell_text (row : element) (i : nat) : string :=
  match cells row !! i with
  | Some c => PyStr.strip (text (obj c))
  | None => EmptyString
  end.

Definition has_two_cells (row : element) : bool :=
  (2 <=? length (cells row))%nat.

Definition level_move (row : element) : string :=
  cell_text row 0 +:+ ": " +:+ cell_text row 1.

Definition level_up_spec (rows : list element) : list string :=
  map level_move (List.filter has_two_cells (drop 2 rows)).

(** The rows of the table that encloses the first anchor called [anchor]:
    none when the anchor stands outside every table. *)
Definition enclosing_rows (soup : node) (a : element) : list element :=
  match find_parent soup a (is_tag "table") with
  | Some table => find_all table (is_tag "tr")
  | None => []
  end.






(** ** Sample pages

    Small documents with the layout the scraper expects, used to run the
    definitions. *)

Module Samples.

Definition el (nm : string) (kids : list node) : node := Tag nm ∅ kids.
Definition txt (s : string) : node := NavigableString s.
Definition cell (s : string) : node := el "td" [txt s].
Definition info (kids : list node) : node :=
  Tag "td" {[ "class" := AttrList ["fooinfo"] ]} kids.
Definition center (kids : list node) : node :=
  Tag "div" {[ "align" := AttrStr "center" ]} kids.
Definition dextable (kids : list node) : node :=
  Tag "table" {[ "class" := AttrList ["dextable"] ]} kids.
Definition anchor (nm : string) : node :=
  Tag "a" {[ "name" := AttrStr nm ]} [].

Definition stats_row : node :=
  el "tr" [cell "Base Stats - Total: 318"; cell "45"; cell "49"; cell "49";
           cell "65"; cell "65"; cell "45"].

Definition level_table : node :=
  dextable
    [el "tr" [el "td" [anchor "standardlevel"; txt "Standard Level Up"]];
     el "tr" [el "th" [txt "Level"]; el "th" [txt "Attack Name"]];
     el "tr" [cell " 1 "; cell "Tackle"; cell "Normal"];
     el "tr" [cell "A full-width description row"];
     el "tr" [cell "3"; cell " Vine Whip"]].

Definition tm_table : node :=
  dextable
    [el "tr" [el "td" [anchor "tmhm"; txt "Technical Machine Attacks"]];
     el "tr" [el "th" [txt "TM"]; el "th" [txt "Attack Name"]];
     el "tr" [cell "TM001"; cell "Take Down"];
     el "tr" [cell "TM098"; cell "Skill Swap (swaps Abilities)"]].

Definition egg_table : node :=
  dextable
    [el "tr" [el "td" [anchor "eggmoves"; txt "Egg Moves"]];
     el "tr" [el "th" [txt "Attack Name"]; el "th" [txt "Type"]];
     el "tr" [cell "Curse"; cell "Ghost"];
     el "tr" [cell "Ingrain"; cell "Grass"]].

Definition abilities_row : node :=
  el "tr" [cell "Abilities: Overgrow "; cell " Hidden Ability: Chlorophyll"].

(** The height and weight cells of the two layouts. *)
Definition standard_cell (value : string) : node :=
  info [el "table" [el "tr" [cell "Standard"; cell value];
                    el "tr" [cell "Metric"; cell "0.7m"]]].

Definition legacy_cell (a b : string) : node :=
  info [txt (a +:+ PyStr.legacy_delimiter +:+ b)].

Definition info_row (height_cell weight_cell : node) : node :=
  el "tr" [info [txt "Picture"]; info [txt "Bulbasaur"]; info [txt "Japan"];
           info [txt "#0001"]; info [txt "Male 87.5%"];
           info [txt "Seed " ; txt Pokemon_word];
           height_cell; weight_cell].

Definition page (rows : list node) (tables : list node) : node :=
  el "[document]"
    [el "html"
       [el "body"
          (center [txt "Banner"] :: center [dextable rows] :: tables)]].

Definition height_2_04 : string := "2'04" +:+ PyStr.quote.

(** The current layout, with every table. *)
Definition standard_page : node :=
  page [info_row (standard_cell height_2_04) (standard_cell "15.2lbs");
        abilities_row; stats_row]
       [level_table; tm_table; egg_table].

(** The legacy layout, of a species without egg moves. *)
Definition legacy_page : node :=
  page [info_row (legacy_cell height_2_04 "0.7m")
                 (legacy_cell "15.2lbs" "6.9kg");
        abilities_row; stats_row]
       [level_table; tm_table].

(** A page whose statistics row is missing. *)
Definition no_stats_page : node :=
  page [info_row (standard_cell height_2_04) (standard_cell "15.2lbs");
        abilities_row]
       [level_table; tm_table; egg_table].

(** A page without the level-up anchor. *)
Definition no_level_page : node :=
  page [info_row (standard_cell height_2_04) (standard_cell "15.2lbs");
        abilities_row; stats_row]
       [tm_table; egg_table].

(** A web that serves [standard_page] for ID 1, [legacy_page] for ID 2,
    [no_stats_page] for ID 3, [standard_page] again for ID 4,
    [no_level_page] for ID 5, and nothing else. *)
Definition web (url : string) : response :=
  if String.eqb url (page_url 1) then Page standard_page
  else if String.eqb url (page_url 2) then Page legacy_page
  else if String.eqb url (page_url 3) then Page no_stats_page
  else if String.eqb url (page_url 4) then Page standard_page
  else if String.eqb url (page_url 5) then Page no_level_page
  else ConnectionFailed.

(** The elements of [standard_page] that the height branch goes through. *)
Definition the (o : option element) : element :=
  default (root standard_page) o.

Definition standard_info : list element :=
  find_all (the (find_all (root standard_page) div_center !! 1%nat)) td_fooinfo.

Definition cell6 : element := the (standard_info !! 6%nat).
Definition cell7 : element := the (standard_info !! 7%nat).
Definition std6 : element := the (find cell6 td_standard).
Definition std7 : element := the (find cell7 td_standard).
Definition next6 : element := the (find_next standard_page std6 (is_tag "td")).
Definition next7 : element := the (find_next standard_page std7 (is_tag "td")).

End Samples.

(** ** Further statements and pages *)

(** The egg moves in the words of the source comments: of the rows after
    the first two, those with at least two cells, each giving the text of
    its cell 0. *)
Definition egg_spec (rows : list element) : list string :=
  map (fun row => cell_text row 0) (List.filter has_two_cells (drop 2 rows)).

(** [int(base_stats_td[i].text)] when it goes through. *)
Definition stat (found : identified) (i : nat) : option Z :=
  match base_stats_td found !! i with
  | Some c => PyStr.int (text (obj c))
  | None => None
  end.

(** The ID a [number] field stands for: the text after the "#", read as an
    integer. *)
Definition id_of_number (s : string) : option Z :=
  match s with
  | String _ digits => PyStr.int digits
  | EmptyString => None
  end.

(** The ID a page URL stands for: the text between the directory and the
    ".shtml" suffix, read as an integer. *)
Definition id_of_url (url : string) : option Z :=
  PyStr.int (String.substring 31 (String.length url - 37) url).

Module MorePages.

Import Samples.

(** A statistics row whose third value is no integer, and one that stops
    after three values. *)
Definition unparsable_stats_row : node :=
  el "tr" [cell "Base Stats - Total: 318"; cell "45"; cell "49"; cell "N/A";
           cell "65"; cell "65"; cell "45"].

Definition short_stats_row : node :=
  el "tr" [cell "Base Stats - Total: 318"; cell "45"; cell "49"; cell "49"].

(** A statistics row whose first value follows the separator U+001C, which
    [str.strip()] removes and [int] does not accept, and whose second value
    is no number either. *)
Definition separator_45 : string := String (Ascii.ascii_of_nat 28) "45".

Definition separator_stats_row : node :=
  el "tr" [cell "Base Stats - Total: 318"; cell separator_45; cell "N/A";
           cell "49"; cell "65"; cell "65"; cell "45"].

Definition separator_stats_page : node :=
  page [info_row (standard_cell height_2_04) (standard_cell "15.2lbs");
        abilities_row; separator_stats_row]
       [level_table; tm_table; egg_table].

Definition unparsable_stats_page : node :=
  page [info_row (standard_cell height_2_04) (standard_cell "15.2lbs");
        abilities_row; unparsable_stats_row]
       [level_table; tm_table; egg_table].

Definition short_stats_page : node :=
  page [info_row (standard_cell height_2_04) (standard_cell "15.2lbs");
        abilities_row; short_stats_row]
       [level_table; tm_table; egg_table].

(** A page whose height cell has the Standard layout and whose weight cell
    has the legacy one, and the other way round. *)
Definition mixed_page : node :=
  page [info_row (standard_cell height_2_04) (legacy_cell "15.2lbs" "6.9kg");
        abilities_row; stats_row]
       [level_table; tm_table; egg_table].

Definition mixed_page_2 : node :=
  page [info_row (legacy_cell height_2_04 "0.7m") (standard_cell "15.2lbs");
        abilities_row; stats_row]
       [level_table; tm_table; egg_table].

(** A page without the TM/HM anchor. *)
Definition no_tm_page : node :=
  page [info_row (standard_cell height_2_04) (standard_cell "15.2lbs");
        abilities_row; stats_row]
       [level_table; egg_table].

(** An egg-move table with a one-cell row between two full rows. *)
Definition sparse_egg_table : node :=
  dextable
    [el "tr" [el "td" [anchor "eggmoves"; txt "Egg Moves"]];
     el "tr" [el "th" [txt "Attack Name"]; el "th" [txt "Type"]];
     el "tr" [cell "Curse"; cell "Ghost"];
     el "tr" [cell "Details of the move"];
     el "tr" [cell " Ingrain "; cell "Grass"]].

Definition sparse_egg_page : node :=
  page [info_row (standard_cell height_2_04) (standard_cell "15.2lbs");
        abilities_row; stats_row]
       [level_table; tm_table; sparse_egg_table].




(** The info cells of a page, as [identify] computes them. *)
Definition info_cells (soup : node) : list element :=
  match find_all (root soup) div_center !! 1%nat with
  | Some div1 => find_all div1 td_fooinfo
  | None => []
  end.

(** A web that serves the pages above for the IDs 11 to 16 and 18,
    [standard_page] for 1 and 17, and nothing else. *)
Definition web (url : string) : response :=
  if String.eqb url (page_url 1) then Page standard_page
  else if String.eqb url (page_url 11) then Page unparsable_stats_page
  else if String.eqb url (page_url 12) then Page short_stats_page
  else if String.eqb url (page_url 13) then Page mixed_page
  else if String.eqb url (page_url 14) then Page mixed_page_2
  else if String.eqb url (page_url 15) then Page no_tm_page
  else if String.eqb url (page_url 16) then Page sparse_egg_page
  else if String.eqb url (page_url 17) then Page standard_page
  else if String.eqb url (page_url 18) then Page separator_stats_page
  else ConnectionFailed.

End MorePages.

(** * Properties *)

(** ** The effect monad *)

Lemma bind_Return {A B} (m : M A) (k : A -> M B) t a :
  m = (t, Return a) -> bind m k = (t ++ fst (k a), snd (k a)).
Proof. intros ->. unfold bind. by destruct (k a). Qed.

Lemma bind_Raise {A B} (m : M A) (k : A -> M B) t ex :
  m = (t, Raise ex) -> bind m k = (t, Raise ex).
Proof. by intros ->. Qed.

Lemma bind_Return_inv {A B} (m : M A) (k : A -> M B) t b :
  bind m k = (t, Return b) ->
  exists t1 a t2, m = (t1, Return a) /\ k a = (t2, Return b) /\ t = t1 ++ t2.
Proof.
  destruct m as [t1 [a|ex|c]]; simpl; [|done..].
  destruct (k a) as [t2 o] eqn:Hk. intros [= <- ->]. by exists t1, a, t2.
Qed.

Lemma bind_ret_l {A B} (a : A) (k : A -> M B) : bind (ret a) k = k a.
Proof. unfold bind, ret. by destruct (k a). Qed.

Lemma bind_ext {A B} (m : M A) (k k' : A -> M B) :
  (forall a, k a = k' a) -> bind m k = bind m k'.
Proof. intros H. destruct m as [t [a|ex|c]]; simpl; by rewrite ?H. Qed.

Lemma quiet_cases {A} (m : M A) :
  quiet m -> (exists a, m = ([], Return a)) \/ (exists ex, m = ([], Raise ex)).
Proof.
  destruct m as [t [a|ex|c]]; intros [Ht Hc]; simpl in *; subst.
  - left. by exists a.
  - right. by exists ex.
  - by destruct (Hc c).
Qed.

Lemma quiet_ret {A} (a : A) : quiet (ret a).
Proof. by split. Qed.

Lemma quiet_raise {A} ex : quiet (@raise A ex).
Proof. by split. Qed.

Lemma quiet_bind {A B} (m : M A) (k : A -> M B) :
  quiet m -> (forall a, quiet (k a)) -> quiet (bind m k).
Proof.
  intros Hm Hk. destruct (quiet_cases m Hm) as [[a ->]|[ex ->]].
  - specialize (Hk a). unfold bind. destruct (k a). apply Hk.
  - by split.
Qed.

Lemma quiet_subscript {A} (l : list A) i : quiet (subscript l i).
Proof. unfold subscript. destruct (l !! i); [apply quiet_ret|apply quiet_raise]. Qed.

Lemma quiet_getattr {A} (o : option A) attr : quiet (getattr o attr).
Proof. destruct o; [apply quiet_ret|apply quiet_raise]. Qed.

Lemma quiet_try_except {A} (body : M A) catches handler :
  quiet body -> (forall ex, quiet (handler ex)) ->
  quiet (try_except body catches handler).
Proof.
  intros Hb Hh. destruct (quiet_cases body Hb) as [[a ->]|[ex ->]]; [done|].
  unfold try_except. destruct (catches ex); [|done].
  specialize (Hh ex). destruct (handler ex). apply Hh.
Qed.

Create HintDb quiet.

#[local] Hint Resolve quiet_ret quiet_raise quiet_subscript quiet_getattr
  : quiet.

Ltac quiet_steps :=
  repeat first
    [ solve [auto with quiet]
    | progress cbv zeta
    | apply quiet_bind; [|intros ?]
    | apply quiet_try_except; [|intros ?]
    | match goal with
      | |- quiet (match ?x with _ => _ end) => destruct x
      end ].

Lemma quiet_height_weight soup cpi : quiet (height_weight soup cpi).
Proof. unfold height_weight. quiet_steps. Qed.

Lemma quiet_anchor_table soup anchor : quiet (anchor_table soup anchor).
Proof. unfold anchor_table. quiet_steps. Qed.

#[local] Hint Resolve quiet_height_weight quiet_anchor_table : quiet.

Lemma quiet_identify soup : quiet (identify soup).
Proof.
  unfold identify, extract_level_up_moves, extract_tm_hm_moves,
    extract_egg_moves.
  quiet_steps.
Qed.

Lemma quiet_int_cell cs i : quiet (int_cell cs i).
Proof. unfold int_cell. quiet_steps. Qed.

#[local] Hint Resolve quiet_identify quiet_int_cell : quiet.

Lemma quiet_assemble poke_id found : quiet (assemble poke_id found).
Proof. unfold assemble. quiet_steps. Qed.

Lemma ret_Return_inv {A} (a b : A) t : ret a = (t, Return b) -> a = b /\ t = [].
Proof. by intros [= <- <-]. Qed.

Lemma subscript_Return_inv {A} (l : list A) i t x :
  subscript l i = (t, Return x) -> l !! i = Some x /\ t = [].
Proof. unfold subscript. destruct (l !! i); [|done]. by intros [= <- <-]. Qed.

Lemma getattr_Return_inv {A} (o : option A) attr t x :
  getattr o attr = (t, Return x) -> o = Some x /\ t = [].
Proof. destruct o; [|done]. by intros [= <- <-]. Qed.

Lemma subscript_Some {A} (l : list A) i x :
  l !! i = Some x -> subscript l i = ret x.
Proof. unfold subscript. by intros ->. Qed.

Lemma getattr_Some {A} (o : option A) attr x :
  o = Some x -> getattr o attr = ret x.
Proof. by intros ->. Qed.

Lemma quiet_Return_inv {A} (m : M A) t a :
  quiet m -> m = (t, Return a) -> m = ([], Return a).
Proof. intros [Ht _] ->. simpl in Ht. by subst. Qed.

(** ** [extract_statistics], one outcome at a time *)

Section Extraction.

Variable web : string -> response.

Lemma extract_connection_failed poke_id :
  web (page_url poke_id) = ConnectionFailed ->
  extract_statistics web poke_id
  = ([EvGet (page_url poke_id)], Raise RequestException).
Proof. intros H. unfold extract_statistics, requests_get. by rewrite H. Qed.

Lemma extract_identify_raises poke_id soup ex :
  web (page_url poke_id) = Page soup ->
  identify soup = ([], Raise ex) ->
  extract_statistics web poke_id
  = ([EvGet (page_url poke_id);
      EvLog ERROR (identify_error (page_url poke_id))], Raise ex).
Proof.
  intros H Hid. unfold extract_statistics, requests_get. rewrite H. simpl.
  by rewrite Hid.
Qed.

Lemma extract_identified poke_id soup found :
  web (page_url poke_id) = Page soup ->
  identify soup = ([], Return found) ->
  extract_statistics web poke_id
  = ([EvGet (page_url poke_id)], snd (assemble poke_id found)).
Proof.
  intros H Hid. unfold extract_statistics, requests_get. rewrite H. simpl.
  rewrite Hid. simpl.
  destruct (quiet_cases _ (quiet_assemble poke_id found)) as [[r ->]|[ex ->]];
    done.
Qed.

(** Extraction requests the page and then either returns a record, leaving
    nothing else in the trace, or raises, with at most error records after
    the request. *)
Lemma extract_outcome poke_id :
  (exists data,
      extract_statistics web poke_id
      = ([EvGet (page_url poke_id)], Return data))
  \/ (exists logs ex,
         extract_statistics web poke_id
         = (EvGet (page_url poke_id) :: map (EvLog ERROR) logs, Raise ex)).
Proof.
  destruct (web (page_url poke_id)) as [|soup] eqn:Hweb.
  - right. exists [], RequestException. by apply extract_connection_failed.
  - destruct (quiet_cases _ (quiet_identify soup)) as [[found Hid]|[ex Hid]].
    + rewrite (extract_identified _ _ _ Hweb Hid).
      destruct (quiet_cases _ (quiet_assemble poke_id found))
        as [[r ->]|[ex ->]]; simpl.
      * left. by exists r.
      * right. by exists [], ex.
    + right. exists [identify_error (page_url poke_id)], ex.
      by apply (extract_identify_raises _ soup).
Qed.

Lemma extracts_inv poke_id data :
  extracts web poke_id data ->
  exists soup found,
    web (page_url poke_id) = Page soup
    /\ identify soup = ([], Return found)
    /\ assemble poke_id found = ([], Return data).
Proof.
  unfold extracts. intros H.
  destruct (web (page_url poke_id)) as [|soup] eqn:Hweb.
  - by rewrite (extract_connection_failed _ Hweb) in H.
  - destruct (quiet_cases _ (quiet_identify soup)) as [[found Hid]|[ex Hid]].
    + rewrite (extract_identified _ _ _ Hweb Hid) in H.
      exists soup, found. repeat split; [done|].
      destruct (quiet_cases _ (quiet_assemble poke_id found))
        as [[r Hr]|[ex Hr]]; rewrite Hr in *; simpl in H; congruence.
    + by rewrite (extract_identify_raises _ _ _ Hweb Hid) in H.
Qed.

Lemma extracts_trace poke_id data :
  extracts web poke_id data ->
  extract_statistics web poke_id = ([EvGet (page_url poke_id)], Return data).
Proof.
  intros H. destruct (extract_outcome poke_id) as [[r Hr]|(logs & ex & Hr)];
    unfold extracts in H; rewrite Hr in *; simpl in H; congruence.
Qed.

End Extraction.

Ltac bind_inv H :=
  let t1 := fresh "t" in
  let t2 := fresh "t" in
  let Hk := fresh "Hk" in
  let Ht := fresh "Ht" in
  apply bind_Return_inv in H as (t1 & ? & t2 & H & Hk & Ht).

Lemma assemble_fields poke_id found data :
  assemble poke_id found = ([], Return data) ->
  number data = "#" +:+ PyStr.zfill 3 (PyStr.str poke_id)
  /\ height data = id_height found
  /\ weight data = id_weight found
  /\ abilities data = id_abilities found
  /\ level_up_moves data = id_level_up_moves found
  /\ tm_hm_moves data = id_tm_hm_moves found
  /\ egg_moves data = id_egg_moves found.
Proof.
  unfold assemble. intros H.
  do 7 (let Hn := fresh "H" in
        apply bind_Return_inv in H as (? & ? & ? & _ & H & _)).
  apply ret_Return_inv in H as [<- _]. repeat split.
Qed.

Lemma identify_inv soup found :
  identify soup = ([], Return found) ->
  exists div1 hw total,
    find_all (root soup) div_center !! 1%nat = Some div1
    /\ center_panel_info found = find_all div1 td_fooinfo
    /\ height_weight soup (center_panel_info found) = ([], Return hw)
    /\ id_height found = fst hw
    /\ id_weight found = snd hw
    /\ find div1 td_base_stats = Some total
    /\ base_stats_td found = find_next_siblings soup total (is_tag "td")
    /\ extract_level_up_moves soup = ([], Return (id_level_up_moves found))
    /\ extract_tm_hm_moves soup = ([], Return (id_tm_hm_moves found))
    /\ extract_egg_moves soup = ([], Return (id_egg_moves found))
    /\ id_abilities found = extract_abilities soup.
Proof.
  unfold identify. intros H.
  apply bind_Return_inv in H as (? & div1 & ? & Hdiv & H & _).
  apply bind_Return_inv in H as (? & hw & ? & Hhw & H & _).
  apply bind_Return_inv in H as (? & total & ? & Htot & H & _).
  apply bind_Return_inv in H as (? & lm & ? & Hlm & H & _).
  apply bind_Return_inv in H as (? & tm & ? & Htm & H & _).
  apply bind_Return_inv in H as (? & em & ? & Hem & H & _).
  apply ret_Return_inv in H as [<- _]. simpl.
  apply subscript_Return_inv in Hdiv as [Hdiv _].
  apply getattr_Return_inv in Htot as [Htot _].
  exists div1, hw, total. repeat split; try done.
  - eapply quiet_Return_inv; [apply quiet_height_weight|done].
  - eapply quiet_Return_inv; [|done]. unfold extract_level_up_moves. quiet_steps.
  - eapply quiet_Return_inv; [|done]. unfold extract_tm_hm_moves. quiet_steps.
  - eapply quiet_Return_inv; [|done]. unfold extract_egg_moves. quiet_steps.
Qed.

(** ** What the traces show *)

Lemma fetched_app t1 t2 : fetched (t1 ++ t2) = fetched t1 ++ fetched t2.
Proof. apply omap_app. Qed.

Lemma displayed_app t1 t2 : displayed (t1 ++ t2) = displayed t1 ++ displayed t2.
Proof. apply omap_app. Qed.

Lemma written_app t1 t2 : written (t1 ++ t2) = written t1 ++ written t2.
Proof. apply omap_app. Qed.

Lemma failure_trace_shows poke_id logs :
  fetched (failure_trace poke_id logs) = [page_url poke_id]
  /\ displayed (failure_trace poke_id logs) = []
  /\ written (failure_trace poke_id logs) = [].
Proof.
  unfold failure_trace, fetched, displayed, written. simpl.
  induction logs as [|msg logs (IH1 & IH2 & IH3)]; [done|].
  simpl. repeat split; [by injection IH1 as -> | done | done].
Qed.

Lemma success_trace_shows args ids rs :
  length ids = length rs ->
  fetched (success_trace args ids rs) = map page_url ids
  /\ displayed (success_trace args ids rs)
     = (if verbose args || negb (save args) then rs else [])
  /\ written (success_trace args ids rs) = [].
Proof.
  revert rs. induction ids as [|i ids IH]; intros [|r rs] Hlen; try done.
  - simpl. by destruct (verbose args || negb (save args)).
  - injection Hlen as Hlen. destruct (IH rs Hlen) as (IH1 & IH2 & IH3).
    unfold fetched, displayed, written in *. simpl. unfold report.
    set (b := verbose args || negb (save args)) in *. clearbody b.
    destruct b; simpl; repeat split;
      first [exact IH2 | exact IH3 | f_equal; first [exact IH1 | exact IH2]].
Qed.

Lemma closing_shows args data :
  fetched (closing args data) = []
  /\ displayed (closing args data) = []
  /\ written (closing args data) = (if save args then [data] else []).
Proof. unfold closing. by destruct (save args). Qed.

(** ** The loop of [scrape_pokemon] *)

Section Batch.

Variable web : string -> response.
Variable args : arguments.

Lemma scrape_loop_cons_ok poke_id ids acc data :
  extracts web poke_id data ->
  scrape_loop web args (poke_id :: ids) acc
  = (EvGet (page_url poke_id) :: report args data
       :: fst (scrape_loop web args ids (acc ++ [data])),
     snd (scrape_loop web args ids (acc ++ [data]))).
Proof.
  intros H. apply extracts_trace in H. simpl. rewrite H. simpl.
  unfold report, display_formatted, logging_info, emit.
  destruct (verbose args || negb (save args)); simpl;
    by destruct (scrape_loop web args ids (acc ++ [data])).
Qed.

Lemma scrape_loop_cons_raise poke_id ids acc t ex :
  extract_statistics web poke_id = (t, Raise ex) ->
  scrape_loop web args (poke_id :: ids) acc = (t, Raise ex).
Proof. intros H. simpl. by rewrite H. Qed.

(** The loop either extracts every ID, or stops at the first ID whose
    extraction raises, the IDs before it having been extracted. *)
Lemma scrape_loop_run ids acc :
  (exists rs,
      Forall2 (extracts web) ids rs
      /\ scrape_loop web args ids acc
         = (success_trace args ids rs, Return (acc ++ rs)))
  \/ (exists k j rs logs ex,
         ids !! k = Some j
         /\ Forall2 (extracts web) (take k ids) rs
         /\ extract_statistics web j = (failure_trace j logs, Raise ex)
         /\ scrape_loop web args ids acc
            = (success_trace args (take k ids) rs ++ failure_trace j logs,
               Raise ex)).
Proof.
  revert acc. induction ids as [|i ids IH]; intros acc.
  - left. exists []. split; [constructor|]. simpl. by rewrite app_nil_r.
  - destruct (extract_outcome web i) as [[r Hr]|(logs & ex & Hr)].
    + assert (Hi : extracts web i r) by (unfold extracts; by rewrite Hr).
      rewrite (scrape_loop_cons_ok _ _ _ _ Hi).
      destruct (IH (acc ++ [r])) as [(rs & Hrs & ->)|(k & j & rs & lg & e & Hk & Hrs & Hj & ->)].
      * left. exists (r :: rs). split; [by constructor|].
        simpl. by rewrite <- app_assoc.
      * right. exists (S k), j, (r :: rs), lg, e.
        repeat split; try done. by constructor.
    + right. exists 0%nat, i, [], logs, ex.
      repeat split; try done; try constructor.
      by apply scrape_loop_cons_raise.
Qed.

Lemma scrape_pokemon_run first_id last_id :
  let ids := id_range first_id last_id in
  (exists rs,
      Forall2 (extracts web) ids rs
      /\ scrape_pokemon web first_id last_id args
         = (success_trace args ids rs ++ closing args rs, Return tt))
  \/ (exists k j rs logs ex,
         ids !! k = Some j
         /\ Forall2 (extracts web) (take k ids) rs
         /\ extract_statistics web j = (failure_trace j logs, Raise ex)
         /\ scrape_pokemon web first_id last_id args
            = (success_trace args (take k ids) rs ++ failure_trace j logs,
               Raise ex)).
Proof.
  intros ids. unfold scrape_pokemon. fold ids.
  destruct (scrape_loop_run ids [])
    as [(rs & Hrs & ->)|(k & j & rs & lg & e & Hk & Hrs & Hj & ->)].
  - left. exists rs. split; [done|]. simpl. unfold closing.
    by destruct (save args).
  - right. by exists k, j, rs, lg, e.
Qed.

End Batch.

(** ** [validate_input] and [main] *)

Lemma validate_input_in_range first_id last_id :
  first_id < 1026 -> last_id < 1026 ->
  validate_input first_id last_id
  = ([], Return (first_id,
                 if last_id <? first_id then first_id else last_id)).
Proof.
  intros Hf Hl. unfold validate_input.
  destruct (Z.leb_spec 1026 first_id); [lia|].
  destruct (Z.leb_spec 1026 last_id); [lia|]. done.
Qed.

Lemma validate_input_out_of_range first_id last_id :
  1026 <= first_id \/ 1026 <= last_id ->
  validate_input first_id last_id = ([unsupported_record], SystemExit None).
Proof.
  intros H. unfold validate_input.
  destruct (Z.leb_spec 1026 first_id); [done|].
  destruct (Z.leb_spec 1026 last_id); [done|lia].
Qed.

Section Main.

Variable web : string -> response.
Variable args : arguments.

Lemma main_out_of_range :
  1026 <= first args \/ 1026 <= last args ->
  main web args = ([start_record; unsupported_record], SystemExit None).
Proof.
  intros H. unfold main. by rewrite (validate_input_out_of_range _ _ H).
Qed.

(** A run with valid arguments either goes through the whole range and
    closes, or stops at the first extraction that raises, logs the
    exception and lets it go on to the interpreter. *)
Lemma main_in_range :
  first args < 1026 -> last args < 1026 ->
  (exists rs,
      Forall2 (extracts web) (run_ids args) rs
      /\ main web args
         = (start_record :: success_trace args (run_ids args) rs
              ++ closing args rs, Return tt))
  \/ (exists k j rs logs ex,
         run_ids args !! k = Some j
         /\ Forall2 (extracts web) (take k (run_ids args)) rs
         /\ extract_statistics web j = (failure_trace j logs, Raise ex)
         /\ main web args
            = (start_record :: success_trace args (take k (run_ids args)) rs
                 ++ failure_trace j logs ++ [EvLogExn ex], Raise ex)).
Proof.
  intros Hf Hl. unfold main, run_ids.
  rewrite (validate_input_in_range _ _ Hf Hl). simpl.
  destruct (scrape_pokemon_run web args (first args)
              (if last args <? first args then first args else last args))
    as [(rs & Hrs & ->)|(k & j & rs & lg & e & Hk & Hrs & Hj & ->)].
  - left. by exists rs.
  - right. exists k, j, rs, lg, e. repeat split; try done.
    simpl. by rewrite <- app_assoc.
Qed.

End Main.

(** ** The argument check *)

(** C3.  For inputs [first_id] and [last_id] both below 1026 with
    [last_id < first_id], [validate_input] returns [(first_id, first_id)]:
    it logs nothing, raises nothing and does not exit. *)
Theorem validate_input_coerces_last (first_id last_id : Z) :
  first_id < 1026 -> last_id < 1026 -> last_id < first_id ->
  validate_input first_id last_id = ([], Return (first_id, first_id)).
Proof.
  intros Hf Hl Hlt. rewrite validate_input_in_range by done.
  destruct (Z.ltb_spec last_id first_id); [done|lia].
Qed.

Lemma validate_input_5_2 : validate_input 5 2 = ([], Return (5, 5)).
Proof. apply validate_input_coerces_last; lia. Defined.

(** C4.  When the first or the last ID is 1026 or more, the run logs the
    error record at once and exits through the bare [exit()]: no page is
    requested, nothing is displayed or written, and the status handed to
    the shell is 0, where the specification asks for a non-zero one. *)
Theorem invalid_range_exits_with_status_zero web (args : arguments) :
  1026 <= first args \/ 1026 <= last args ->
  main web args = ([start_record; unsupported_record], SystemExit None)
  /\ fetched (fst (main web args)) = []
  /\ displayed (fst (main web args)) = []
  /\ written (fst (main web args)) = []
  /\ exit_status (snd (main web args)) = 0.
Proof. intros H. by rewrite (main_out_of_range web args H). Qed.

Lemma invalid_range_1026_1 :
  main Samples.web (Arguments false 1026 1 false)
  = ([start_record; unsupported_record], SystemExit None)
  /\ exit_status (snd (main Samples.web (Arguments false 1026 1 false))) = 0.
Proof.
  destruct (invalid_range_exits_with_status_zero Samples.web
              (Arguments false 1026 1 false)) as (H1 & _ & _ & _ & H2).
  - left. simpl. lia.
  - by split.
Defined.

(** ** The batch *)

Lemma run_ids_ordered (args : arguments) :
  first args <= last args ->
  run_ids args = seqZ (first args) (last args - first args + 1).
Proof.
  intros H. unfold run_ids, id_range.
  destruct (Z.ltb_spec (last args) (first args)); [lia|]. f_equal. lia.
Qed.

Lemma extracts_number web poke_id data :
  extracts web poke_id data ->
  number data = "#" +:+ PyStr.zfill 3 (PyStr.str poke_id).
Proof.
  intros (soup & found & _ & _ & Has)%extracts_inv.
  by apply assemble_fields in Has as (? & _).
Qed.

(** C2.  For a range with [first <= last < 1026] in which every extraction
    succeeds, the run ends normally with [last - first + 1] records, the
    k-th of them being the record extracted for ID [first + k]; one page per
    ID was requested, in ascending order; the records are what the console
    shows, in that order, when records are displayed, and what the output
    file receives, in that order, when the batch is saved. *)
Theorem batch_produces_one_record_per_id web (args : arguments) :
  first args <= last args -> last args < 1026 ->
  (forall poke_id, first args <= poke_id <= last args ->
                   exists data, extracts web poke_id data) ->
  exists rs,
    length rs = Z.to_nat (last args - first args + 1)
    /\ (forall k data, rs !! k = Some data ->
          extracts web (first args + Z.of_nat k) data
          /\ number data
             = "#" +:+ PyStr.zfill 3 (PyStr.str (first args + Z.of_nat k)))
    /\ snd (main web args) = Return tt
    /\ fetched (fst (main web args))
       = map page_url (seqZ (first args) (last args - first args + 1))
    /\ displayed (fst (main web args))
       = (if verbose args || negb (save args) then rs else [])
    /\ written (fst (main web args)) = (if save args then [rs] else []).
Proof.
  intros Hle Hlast Hall.
  destruct (main_in_range web args) as
    [(rs & Hrs & Hmain)|(k & j & rs & lg & e & Hk & _ & Hj & _)];
    [lia|lia| |].
  - rewrite run_ids_ordered in Hrs by done.
    assert (Hlen : length (seqZ (first args) (last args - first args + 1))
                   = length rs) by (by eapply Forall2_length).
    exists rs. rewrite Hmain. simpl.
    rewrite run_ids_ordered by done.
    destruct (success_trace_shows args _ _ Hlen) as (Hf & Hd & Hw).
    destruct (closing_shows args rs) as (Hf' & Hd' & Hw').
    repeat split.
    + by rewrite <- Hlen, length_seqZ.
    + destruct (Forall2_lookup_r _ _ _ _ _ Hrs H) as (i & Hi & Hx).
      apply lookup_seqZ in Hi as [-> _]. done.
    + destruct (Forall2_lookup_r _ _ _ _ _ Hrs H) as (i & Hi & Hx).
      apply lookup_seqZ in Hi as [-> _]. by apply (extracts_number web).
    + change (start_record :: ?t) with ([start_record] ++ t).
      rewrite !fetched_app, Hf, Hf'. simpl. by rewrite app_nil_r.
    + change (start_record :: ?t) with ([start_record] ++ t).
      rewrite !displayed_app, Hd, Hd'. simpl. by rewrite app_nil_r.
    + change (start_record :: ?t) with ([start_record] ++ t).
      rewrite !written_app, Hw, Hw'. done.
  - exfalso. rewrite run_ids_ordered in Hk by done.
    apply lookup_seqZ in Hk as [-> Hk].
    destruct (Hall (first args + Z.of_nat k)) as [data Hd]; [lia|].
    unfold extracts in Hd. by rewrite Hj in Hd.
Qed.

Lemma batch_of_two_records :
  exists rs,
    length rs = 2%nat
    /\ snd (main Samples.web (Arguments true 1 2 false)) = Return tt
    /\ written (fst (main Samples.web (Arguments true 1 2 false))) = [rs].
Proof.
  destruct (batch_produces_one_record_per_id Samples.web
              (Arguments true 1 2 false))
    as (rs & Hlen & _ & Hret & _ & _ & Hw).
  - simpl. lia.
  - simpl. lia.
  - simpl. intros poke_id H.
    assert (Hid : poke_id = 1 \/ poke_id = 2) by lia.
    destruct Hid as [-> | ->]; eexists; vm_compute; reflexivity.
  - exists rs. repeat split; assumption.
Defined.

(** ** The two output paths *)

Lemma console_needs_display web (args : arguments) :
  console_effect (fst (main web args)) ->
  verbose args || negb (save args) = true.
Proof.
  unfold console_effect.
  destruct (Z_lt_le_dec (first args) 1026) as [Hf|Hf];
    [destruct (Z_lt_le_dec (last args) 1026) as [Hl|Hl]|].
  - destruct (main_in_range web args Hf Hl) as
      [(rs & Hrs & ->)|(k & j & rs & lg & e & _ & Hrs & _ & ->)]; cbn [fst];
      apply Forall2_length in Hrs;
      destruct (success_trace_shows args _ _ Hrs) as (_ & Hd & _);
      change (start_record :: ?t) with ([start_record] ++ t);
      rewrite !displayed_app, Hd.
    + destruct (closing_shows args rs) as (_ & -> & _).
      by destruct (verbose args || negb (save args)).
    + destruct (failure_trace_shows j lg) as (_ & -> & _).
      by destruct (verbose args || negb (save args)).
  - by rewrite main_out_of_range by (by right).
  - by rewrite main_out_of_range by (by left).
Qed.

Lemma json_needs_save web (args : arguments) :
  json_effect (fst (main web args)) -> save args = true.
Proof.
  unfold json_effect.
  destruct (Z_lt_le_dec (first args) 1026) as [Hf|Hf];
    [destruct (Z_lt_le_dec (last args) 1026) as [Hl|Hl]|].
  - destruct (main_in_range web args Hf Hl) as
      [(rs & Hrs & ->)|(k & j & rs & lg & e & _ & Hrs & _ & ->)]; cbn [fst];
      apply Forall2_length in Hrs;
      destruct (success_trace_shows args _ _ Hrs) as (_ & _ & Hw);
      change (start_record :: ?t) with ([start_record] ++ t);
      rewrite !written_app, Hw.
    + destruct (closing_shows args rs) as (_ & _ & ->).
      by destruct (save args).
    + by destruct (failure_trace_shows j lg) as (_ & _ & ->).
  - by rewrite main_out_of_range by (by right).
  - by rewrite main_out_of_range by (by left).
Qed.

Lemma run_ids_first (args : arguments) :
  exists ids, run_ids args = first args :: ids.
Proof.
  unfold run_ids, id_range.
  exists (seqZ (Z.succ (first args))
            (Z.pred ((if last args <? first args then first args
                      else last args) + 1 - first args))).
  apply seqZ_cons. destruct (Z.ltb_spec (last args) (first args)); lia.
Qed.

(** C6, as the code has it.  In a run whose save and verbose flags are not
    both set, at most one of the two output paths takes effect: records are
    displayed only if the verbose flag is set or the save flag is not, and
    the batch is written only if the save flag is set.  In a run with both
    flags set, both paths take effect exactly when the range is accepted and
    every ID of it is extracted; in every other run with both flags at most
    one of them does. *)
Theorem output_paths_exclusive_unless_both_flags web (args : arguments) :
  (verbose args && save args = false ->
   exclusive_in_effect (fst (main web args)))
  /\ (verbose args && save args = true ->
      (console_effect (fst (main web args))
       /\ json_effect (fst (main web args))
       <-> first args < 1026 /\ last args < 1026
           /\ forall i, i ∈ run_ids args -> exists d, extracts web i d)).
Proof.
  split.
  { intros Hflags [Hc Hj].
    apply console_needs_display in Hc. apply json_needs_save in Hj.
    destruct (verbose args), (save args); done. }
  intros [Hv Hs]%andb_true_iff.
  unfold console_effect, json_effect.
  destruct (Z_lt_le_dec (first args) 1026) as [Hf|Hf];
    [destruct (Z_lt_le_dec (last args) 1026) as [Hl|Hl]|].
  - destruct (main_in_range web args Hf Hl) as
      [(rs & Hrs & ->)|(k & j & rs & lg & e & Hk & Hrs & Hj & ->)]; cbn [fst];
      pose proof (Forall2_length _ _ _ Hrs) as Hlen;
      destruct (success_trace_shows args _ _ Hlen) as (_ & Hd & Hw);
      change (start_record :: ?t) with ([start_record] ++ t);
      rewrite !written_app, !displayed_app, Hd, Hw, Hv.
    + destruct (closing_shows args rs) as (_ & -> & ->). rewrite Hs.
      destruct (run_ids_first args) as [ids Hids].
      split.
      * intros _. split; [done|]. split; [done|]. intros i Hi.
        apply list_elem_of_lookup in Hi as [n Hn].
        destruct (Forall2_lookup_l _ _ _ _ _ Hrs Hn) as (d & _ & Hdat).
        by exists d.
      * intros _. rewrite Hids in Hlen. by destruct rs.
    + destruct (failure_trace_shows j lg) as (_ & -> & ->).
      split.
      * by intros [_ Hw'].
      * intros (_ & _ & Hall). exfalso.
        destruct (Hall j (list_elem_of_lookup_2 _ _ _ Hk)) as [d Hdat].
        unfold extracts in Hdat. by rewrite Hj in Hdat.
  - rewrite main_out_of_range by (by right). cbn [fst]. split.
    + by intros [Hc _].
    + intros (_ & ? & _). lia.
  - rewrite main_out_of_range by (by left). cbn [fst]. split.
    + by intros [Hc _].
    + intros (? & _). lia.
Qed.

Lemma output_paths_exclusive_when_saving_quietly :
  exclusive_in_effect (fst (main Samples.web (Arguments true 1 2 false)))
  /\ (console_effect (fst (main Samples.web (Arguments true 1 2 true)))
      /\ json_effect (fst (main Samples.web (Arguments true 1 2 true))))
  /\ ~ (console_effect (fst (main Samples.web (Arguments true 2 3 true)))
        /\ json_effect (fst (main Samples.web (Arguments true 2 3 true)))).
Proof.
  split; [|split].
  - apply (output_paths_exclusive_unless_both_flags Samples.web
             (Arguments true 1 2 false)).
    reflexivity.
  - apply (output_paths_exclusive_unless_both_flags Samples.web
             (Arguments true 1 2 true)); [reflexivity|].
    split; [simpl; lia|]. split; [simpl; lia|].
    intros i Hi.
    assert (Hid : i = 1 \/ i = 2).
    { vm_compute in Hi. apply elem_of_cons in Hi as [->|Hi]; [by left|].
      apply elem_of_cons in Hi as [->|Hi]; [by right|].
      by apply elem_of_nil in Hi. }
    destruct Hid as [-> | ->]; eexists; vm_compute; reflexivity.
  - intros Hboth.
    apply (output_paths_exclusive_unless_both_flags Samples.web
             (Arguments true 2 3 true)) in Hboth as (_ & _ & Hall);
      [|reflexivity].
    destruct (Hall 3) as [d Hd].
    + vm_compute. apply list_elem_of_further, list_elem_of_here.
    + unfold extracts in Hd. vm_compute in Hd. discriminate.
Defined.

(** C6, as the specification states it, fails: with the save and the
    verbose flag both set, the record of ID 1 is displayed and the batch is
    written in the same run. *)
Lemma both_paths_take_effect :
  ~ exclusive_in_effect (fst (main Samples.web (Arguments true 1 1 true))).
Proof. intros H. apply H. split; vm_compute; discriminate. Qed.

(** C9.  With the save flag set, [scrape_pokemon] either extracts every ID
    of the range and then, as its last action, writes the records to the
    output file, or raises with the file never written; and when some ID of
    the range cannot be extracted it is the latter. *)
Theorem json_written_only_after_all_extracted web (args : arguments)
  (first_id last_id : Z) :
  save args = true ->
  let run := scrape_pokemon web first_id last_id args in
  ((exists rs t,
       Forall2 (extracts web) (id_range first_id last_id) rs
       /\ fst run = t ++ [EvWrite OUTPUT_FILE rs]
       /\ written t = []
       /\ fetched t = map page_url (id_range first_id last_id)
       /\ snd run = Return tt)
   \/ (written (fst run) = [] /\ exists ex, snd run = Raise ex))
  /\ (forall poke_id,
        poke_id ∈ id_range first_id last_id ->
        (forall data, ~ extracts web poke_id data) ->
        written (fst run) = [] /\ exists ex, snd run = Raise ex).
Proof.
  intros Hsave run.
  assert (Hfail : forall k j rs lg e,
            Forall2 (extracts web) (take k (id_range first_id last_id)) rs ->
            scrape_pokemon web first_id last_id args
            = (success_trace args (take k (id_range first_id last_id)) rs
                 ++ failure_trace j lg, Raise e) ->
            written (fst run) = [] /\ exists ex, snd run = Raise ex).
  { intros k j rs lg e Hrs Hrun. subst run. rewrite Hrun. simpl.
    apply Forall2_length in Hrs.
    destruct (success_trace_shows args _ _ Hrs) as (_ & _ & Hw).
    destruct (failure_trace_shows j lg) as (_ & _ & Hw').
    rewrite written_app, Hw, Hw'. split; [done|by exists e]. }
  destruct (scrape_pokemon_run web args first_id last_id)
    as [(rs & Hrs & Hrun)|(k & j & rs & lg & e & Hk & Hrs & Hj & Hrun)].
  - split.
    + left. exists rs,
        (success_trace args (id_range first_id last_id) rs
           ++ [EvLog INFO ("Saving to " +:+ OUTPUT_FILE)]).
      pose proof (Forall2_length _ _ _ Hrs) as Hlen.
      destruct (success_trace_shows args _ _ Hlen) as (Hf & _ & Hw).
      subst run. rewrite Hrun. unfold closing. rewrite Hsave. simpl.
      repeat split; [done|by rewrite <- app_assoc| |].
      * by rewrite written_app, Hw.
      * rewrite fetched_app, Hf. simpl. by rewrite app_nil_r.
    + intros poke_id Hin Hno. exfalso.
      apply list_elem_of_lookup in Hin as [i Hi].
      destruct (Forall2_lookup_l _ _ _ _ _ Hrs Hi) as (data & _ & Hd).
      by apply (Hno data).
  - split; [right|intros _ _ _]; by apply (Hfail k j rs lg e).
Qed.

Lemma no_json_when_id_3_fails :
  written (fst (scrape_pokemon Samples.web 2 3 (Arguments true 2 3 false))) = []
  /\ exists ex,
      snd (scrape_pokemon Samples.web 2 3 (Arguments true 2 3 false))
      = Raise ex.
Proof.
  apply (json_written_only_after_all_extracted Samples.web
           (Arguments true 2 3 false) 2 3 eq_refl) with (poke_id := 3).
  - vm_compute. apply list_elem_of_further, list_elem_of_here.
  - intros data. unfold extracts. vm_compute. discriminate.
Defined.

(** ** The document tree *)

Lemma node_ind' (P : node -> Prop) :
  (forall s, P (NavigableString s)) ->
  (forall s, P (Comment s)) ->
  (forall nm attrs cs, Forall P cs -> P (Tag nm attrs cs)) ->
  forall n, P n.
Proof.
  intros Hs Hc Ht. fix IH 1. intros [s|s|nm attrs cs].
  - apply Hs.
  - apply Hc.
  - apply Ht. induction cs as [|c cs IHcs]; constructor; [apply IH|apply IHcs].
Qed.

Lemma over_children_In {A} (f : nat -> node -> list A) i cs x :
  In x (over_children f i cs) <->
  exists j c, cs !! j = Some c /\ In x (f (i + j)%nat c).
Proof.
  revert i. induction cs as [|c cs IH]; intros i; simpl.
  - split; [done|]. by intros (j & c & Hj & _).
  - rewrite in_app_iff, IH. split.
    + intros [H|(j & c' & Hj & H)].
      * exists 0%nat, c. by rewrite Nat.add_0_r.
      * exists (S j), c'. by rewrite Nat.add_succ_r.
    + intros ([|j] & c' & Hj & H).
      * left. injection Hj as <-. by rewrite Nat.add_0_r in H.
      * right. exists j, c'. by rewrite Nat.add_succ_r in H.
Qed.

(** What lies below a descendant of [n] lies below [n]. *)
Lemma descendants_trans n :
  forall p e x,
    In e (descendants p n) ->
    In x (descendants (loc e) (obj e)) ->
    In x (descendants p n).
Proof.
  induction n as [s|s|nm attrs cs IH] using node_ind'; intros p e x; try done.
  simpl. rewrite !over_children_In.
  intros (j & c & Hj & [<-|He]) Hx; exists j, c; (split; [done|]); right.
  - done.
  - rewrite Forall_forall in IH.
    apply (IH c (list_elem_of_lookup_2 _ _ _ Hj) _ e x He Hx).
Qed.

Lemma head_In {A} (l : list A) x : head l = Some x -> In x l.
Proof. destruct l; [done|]. intros [= ->]. by left. Qed.

Lemma lookup_In {A} (l : list A) (i : nat) x : l !! i = Some x -> In x l.
Proof. intros H. apply list_elem_of_In. by eapply list_elem_of_lookup_2. Qed.

Lemma find_all_In e crit x :
  In x (find_all e crit) <->
  In x (descendants (loc e) (obj e)) /\ crit (obj x) = true.
Proof. unfold find_all. apply filter_In. Qed.

Lemma find_Some_In e crit x :
  find e crit = Some x ->
  In x (descendants (loc e) (obj e)) /\ crit (obj x) = true.
Proof. intros H. by apply find_all_In, head_In. Qed.

Lemma find_None e crit :
  (forall x, In x (descendants (loc e) (obj e)) -> crit (obj x) = false) ->
  find e crit = None.
Proof.
  intros H. destruct (find e crit) as [x|] eqn:Hx; [|done].
  apply find_Some_In in Hx as [Hin Hc]. by rewrite (H x Hin) in Hc.
Qed.

(** ** The statistics row *)

(** Without a cell that matches "Base Stats - Total", the [try] block does
    not get past line 72. *)
Lemma identify_needs_base_stats soup :
  (forall e, In e (descendants [] soup) -> td_base_stats (obj e) = false) ->
  exists ex, identify soup = ([], Raise ex).
Proof.
  intros Hno.
  destruct (quiet_cases _ (quiet_identify soup)) as [[found Hid]|[ex Hid]];
    [exfalso|by exists ex].
  apply identify_inv in Hid
    as (div1 & hw & total & Hdiv & _ & _ & _ & _ & Htot & _).
  apply lookup_In, find_all_In in Hdiv as [Hdiv _].
  apply find_Some_In in Htot as [Htot Hc].
  rewrite (Hno total) in Hc; [done|].
  by apply (descendants_trans soup [] div1 total).
Qed.

Lemma take_seqZ m n (k : nat) :
  Z.of_nat k <= n -> take k (seqZ m n) = seqZ m (Z.of_nat k).
Proof.
  intros H. replace n with (Z.of_nat k + (n - Z.of_nat k)) by lia.
  rewrite seqZ_app by lia.
  rewrite take_app_length'; [done|]. rewrite length_seqZ. lia.
Qed.

(** C1.  Let the page of [poke_id] hold no [td] whose string matches
    "Base Stats - Total".  Then extracting [poke_id] requests the page, logs
    one error record, whose text ends with the URL of that page, and raises.
    A batch over a range that contains [poke_id] raises as well: it stops at
    an ID [first_id + k] not after [poke_id], which gives no record, having
    requested the pages up to that ID only; the records it has produced,
    [rs], are those of the [k] IDs before it, and the output file is not
    written.  When it is [poke_id] itself the batch stops at, the batch ends
    with that request and that error record. *)
Theorem missing_base_stats_halts_batch web (args : arguments)
  (first_id last_id poke_id : Z) soup :
  web (page_url poke_id) = Page soup ->
  (forall e, In e (descendants [] soup) -> td_base_stats (obj e) = false) ->
  first_id <= poke_id <= last_id ->
  (exists ex,
      extract_statistics web poke_id
      = ([EvGet (page_url poke_id);
          EvLog ERROR
            ("There was an error trying to identify HTML elements on the webpage. URL: "
             +:+ page_url poke_id)], Raise ex))
  /\ (exists (k : nat) rs t ex,
         first_id + Z.of_nat k <= poke_id
         /\ Forall2 (extracts web) (seqZ first_id (Z.of_nat k)) rs
         /\ (forall data, ~ extracts web (first_id + Z.of_nat k) data)
         /\ scrape_pokemon web first_id last_id args = (t, Raise ex)
         /\ fetched t = map page_url (seqZ first_id (Z.of_nat (S k)))
         /\ displayed t = (if verbose args || negb (save args) then rs else [])
         /\ written t = []
         /\ (first_id + Z.of_nat k = poke_id ->
             exists t0,
               t = t0 ++
                   [EvGet (page_url poke_id);
                    EvLog ERROR
                      ("There was an error trying to identify HTML elements on the webpage. URL: "
                       +:+ page_url poke_id)])).
Proof.
  intros Hweb Hno Hin.
  destruct (identify_needs_base_stats soup Hno) as [ex Hid].
  pose proof (extract_identify_raises web poke_id soup ex Hweb Hid) as Hex.
  split; [by exists ex|].
  assert (Hnot : forall data, ~ extracts web poke_id data).
  { intros data Hd. unfold extracts in Hd. by rewrite Hex in Hd. }
  assert (Hpos : id_range first_id last_id
                 !! Z.to_nat (poke_id - first_id) = Some poke_id).
  { unfold id_range. apply lookup_seqZ. lia. }
  destruct (scrape_pokemon_run web args first_id last_id)
    as [(rs & Hrs & _)|(k & j & rs & lg & e & Hk & Hrs & Hj & Hrun)].
  - exfalso. destruct (Forall2_lookup_l _ _ _ _ _ Hrs Hpos) as (d & _ & Hd).
    by apply (Hnot d).
  - unfold id_range in *. apply lookup_seqZ in Hk as [-> Hk].
    rewrite take_seqZ in Hrs, Hrun by lia.
    assert (Hle : first_id + Z.of_nat k <= poke_id).
    { destruct (Z_le_gt_dec (first_id + Z.of_nat k) poke_id) as [|Hgt];
        [done|exfalso].
      assert (Hpos' : seqZ first_id (Z.of_nat k)
                      !! Z.to_nat (poke_id - first_id) = Some poke_id)
        by (apply lookup_seqZ; lia).
      destruct (Forall2_lookup_l _ _ _ _ _ Hrs Hpos') as (d & _ & Hd).
      by apply (Hnot d). }
    exists k, rs,
      (success_trace args (seqZ first_id (Z.of_nat k)) rs
         ++ failure_trace (first_id + Z.of_nat k) lg), e.
    pose proof (Forall2_length _ _ _ Hrs) as Hlen.
    destruct (success_trace_shows args _ _ Hlen) as (Hf & Hd & Hw).
    destruct (failure_trace_shows (first_id + Z.of_nat k) lg)
      as (Hf' & Hd' & Hw').
    split; [done|]. split; [done|]. split.
    { intros data Hdata. unfold extracts in Hdata. by rewrite Hj in Hdata. }
    split; [exact Hrun|]. split.
    { rewrite fetched_app, Hf, Hf', seqZ_S, map_app. done. }
    split.
    { rewrite displayed_app, Hd, Hd'. by rewrite app_nil_r. }
    split.
    { by rewrite written_app, Hw, Hw'. }
    intros Hstop. rewrite Hstop in *. rewrite Hex in Hj.
    pose proof (f_equal fst Hj) as Hft. cbn [fst] in Hft. rewrite <- Hft.
    by exists (success_trace args (seqZ first_id (Z.of_nat k)) rs).
Qed.

Lemma missing_base_stats_at_id_3 :
  (exists ex,
      extract_statistics Samples.web 3
      = ([EvGet "https://serebii.net/pokedex-sv/003.shtml";
          EvLog ERROR
            "There was an error trying to identify HTML elements on the webpage. URL: https://serebii.net/pokedex-sv/003.shtml"],
         Raise ex))
  /\ (exists (k : nat) rs t ex,
         1 + Z.of_nat k <= 3
         /\ Forall2 (extracts Samples.web) (seqZ 1 (Z.of_nat k)) rs
         /\ (forall data, ~ extracts Samples.web (1 + Z.of_nat k) data)
         /\ scrape_pokemon Samples.web 1 4 (Arguments false 1 4 false)
            = (t, Raise ex)
         /\ fetched t = map page_url (seqZ 1 (Z.of_nat (S k)))
         /\ displayed t = rs
         /\ written t = []
         /\ (1 + Z.of_nat k = 3 ->
             exists t0,
               t = t0 ++
                   [EvGet "https://serebii.net/pokedex-sv/003.shtml";
                    EvLog ERROR
                      "There was an error trying to identify HTML elements on the webpage. URL: https://serebii.net/pokedex-sv/003.shtml"])).
Proof.
  apply (missing_base_stats_halts_batch Samples.web
           (Arguments false 1 4 false) 1 4 3 Samples.no_stats_page).
  - reflexivity.
  - intros e He.
    assert (Hall : forallb (fun x => negb (td_base_stats (obj x)))
                     (descendants [] Samples.no_stats_page) = true)
      by (vm_compute; reflexivity).
    rewrite forallb_forall in Hall. apply negb_true_iff. by apply Hall.
  - lia.
Defined.

(** ** The move tables *)

(** C5.  When the document has no anchor named "eggmoves", the egg-move
    extractor returns the empty list without raising, and every record
    extracted from the document has an empty [egg_moves]. *)
Theorem absent_egg_anchor_gives_no_egg_moves soup :
  find (root soup) (a_named "eggmoves") = None ->
  extract_egg_moves soup = ([], Return [])
  /\ (forall web poke_id data,
        web (page_url poke_id) = Page soup ->
        extracts web poke_id data ->
        egg_moves data = []).
Proof.
  intros Hnone.
  assert (Hegg : extract_egg_moves soup = ([], Return [])).
  { unfold extract_egg_moves, anchor_table. by rewrite Hnone. }
  split; [done|]. intros web poke_id data Hweb Hex.
  apply extracts_inv in Hex as (soup' & found & Hweb' & Hid & Has).
  rewrite Hweb in Hweb'. injection Hweb' as <-.
  apply identify_inv in Hid
    as (_ & _ & _ & _ & _ & _ & _ & _ & _ & _ & _ & _ & He & _).
  apply assemble_fields in Has as (_ & _ & _ & _ & _ & _ & ->).
  rewrite Hegg in He. by injection He as <-.
Qed.

Lemma legacy_page_has_no_egg_moves :
  extract_egg_moves Samples.legacy_page = ([], Return [])
  /\ exists data, extracts Samples.web 2 data /\ egg_moves data = [].
Proof.
  destruct (absent_egg_anchor_gives_no_egg_moves Samples.legacy_page)
    as [Hegg Hrec].
  - vm_compute. reflexivity.
  - split; [exact Hegg|].
    destruct (snd (extract_statistics Samples.web 2)) as [data| |] eqn:Hd;
      [|vm_compute in Hd; discriminate..].
    exists data. split; [exact Hd|].
    apply (Hrec Samples.web 2 data); [reflexivity|exact Hd].
Defined.

Lemma pair_rows_spec rows moves :
  pair_rows rows moves
  = moves ++ map level_move (List.filter has_two_cells rows).
Proof.
  revert moves. induction rows as [|row rows IH]; intros moves; simpl.
  - by rewrite app_nil_r.
  - destruct (find_all row (is_tag "td")) as [|c0 [|c1 cs]] eqn:Hcells;
      rewrite IH.
    + replace (has_two_cells row) with false
        by (unfold has_two_cells, cells; by rewrite Hcells). done.
    + replace (has_two_cells row) with false
        by (unfold has_two_cells, cells; by rewrite Hcells). done.
    + replace (has_two_cells row) with true
        by (unfold has_two_cells, cells; by rewrite Hcells).
      simpl. rewrite <- app_assoc. do 2 f_equal.
      unfold level_move, cell_text, cells. by rewrite Hcells.
Qed.

Lemma level_up_moves_spec soup a :
  find (root soup) (a_named "standardlevel") = Some a ->
  extract_level_up_moves soup
  = ([], Return (level_up_spec (enclosing_rows soup a))).
Proof.
  intros Ha. unfold extract_level_up_moves, anchor_table. rewrite Ha. simpl.
  rewrite pair_rows_spec. unfold level_up_spec, enclosing_rows, table_rows.
  by destruct (find_parent soup a (is_tag "table")).
Qed.

Lemma identify_needs_level_anchor soup :
  find (root soup) (a_named "standardlevel") = None ->
  exists ex, identify soup = ([], Raise ex).
Proof.
  intros Hnone.
  destruct (quiet_cases _ (quiet_identify soup)) as [[found Hid]|[ex Hid]];
    [exfalso|by exists ex].
  apply identify_inv in Hid
    as (_ & _ & _ & _ & _ & _ & _ & _ & _ & _ & Hl & _).
  unfold extract_level_up_moves, anchor_table in Hl. by rewrite Hnone in Hl.
Qed.

(** C8.  If the document has no anchor named "standardlevel", extracting
    it raises, the error record with the URL being logged.  Otherwise the
    level-up extractor returns, for the rows of the table that encloses the
    first such anchor, the string ["<level>: <move>"] of every row after
    the first two that has at least two cells, in row order; this is the
    [level_up_moves] of every record extracted from the document, and it is
    empty when the table has fewer than three rows. *)
Theorem level_up_moves_from_anchor_table web poke_id soup :
  web (page_url poke_id) = Page soup ->
  match find (root soup) (a_named "standardlevel") with
  | None =>
    exists ex,
      extract_statistics web poke_id
      = ([EvGet (page_url poke_id);
          EvLog ERROR (identify_error (page_url poke_id))], Raise ex)
  | Some a =>
    extract_level_up_moves soup
    = ([], Return (level_up_spec (enclosing_rows soup a)))
    /\ (forall data, extracts web poke_id data ->
          level_up_moves data = level_up_spec (enclosing_rows soup a))
    /\ ((length (enclosing_rows soup a) < 3)%nat ->
        level_up_spec (enclosing_rows soup a) = [])
  end.
Proof.
  intros Hweb.
  destruct (find (root soup) (a_named "standardlevel")) as [a|] eqn:Ha.
  - pose proof (level_up_moves_spec soup a Ha) as Hspec.
    repeat split; [done| |].
    + intros data Hex.
      apply extracts_inv in Hex as (soup' & found & Hweb' & Hid & Has).
      rewrite Hweb in Hweb'. injection Hweb' as <-.
      apply identify_inv in Hid
        as (_ & _ & _ & _ & _ & _ & _ & _ & _ & _ & Hl & _).
      apply assemble_fields in Has as (_ & _ & _ & _ & -> & _).
      rewrite Hspec in Hl. by injection Hl as <-.
    + intros Hlen. unfold level_up_spec.
      rewrite (drop_ge (enclosing_rows soup a) 2) by lia. done.
  - destruct (identify_needs_level_anchor soup Ha) as [ex Hid].
    exists ex. by apply (extract_identify_raises web poke_id soup).
Qed.

Lemma level_up_moves_of_the_samples :
  extract_level_up_moves Samples.standard_page
  = ([], Return ["1: Tackle"; "3: Vine Whip"])
  /\ exists ex,
      extract_statistics Samples.web 5
      = ([EvGet (page_url 5); EvLog ERROR (identify_error (page_url 5))],
         Raise ex).
Proof.
  split.
  - pose proof (level_up_moves_from_anchor_table Samples.web 1
                  Samples.standard_page eq_refl) as H.
    destruct (find (root Samples.standard_page) (a_named "standardlevel"))
      as [a|] eqn:Ha; [|vm_compute in Ha; discriminate].
    destruct H as (H & _ & _). rewrite H.
    vm_compute in Ha. injection Ha as <-. vm_compute. reflexivity.
  - pose proof (level_up_moves_from_anchor_table Samples.web 5
                  Samples.no_level_page eq_refl) as H.
    destruct (find (root Samples.no_level_page) (a_named "standardlevel"))
      as [a|] eqn:Ha; [vm_compute in Ha; discriminate|].
    exact H.
Defined.

(** ** Abilities *)
















(** ** Height *)

Lemma prefix_char c d s : String.prefix (PyStr.char c) (String d s) = Ascii.eqb c d.
Proof.
  simpl. destruct (ascii_dec c d) as [->|Hne].
  - rewrite Ascii.eqb_refl. by destruct s.
  - symmetry. by apply Ascii.eqb_neq.
Qed.

(** On the quote character, [replace] does what the character-wise
    description says. *)
Lemma replace_quote_spec s :
  PyStr.replace PyStr.quote (PyStr.quote +:+ " ") s = space_after_quote s.
Proof.
  unfold PyStr.replace. induction s as [|c s IH]; [done|].
  cbn [PyStr.replace_go space_after_quote]. unfold PyStr.quote at 1.
  rewrite prefix_char, Ascii.eqb_sym.
  destruct (Ascii.eqb c (ascii_of_nat 34)) eqn:Hc.
  - apply Ascii.eqb_eq in Hc as ->. simpl. by rewrite <- IH.
  - by rewrite <- IH.
Qed.

Lemma split_go_nonempty sep s k : PyStr.split_go sep s k <> [].
Proof.
  revert k. induction s as [|c s IH]; intros k; [done|].
  cbn [PyStr.split_go]. destruct k; [|apply IH].
  destruct (String.prefix sep (String c s)); [done|].
  by destruct (PyStr.split_go sep s 0).
Qed.

(** Splitting on the space: the tokens hold no space, and joined by spaces
    they give the text back. *)
Lemma split_space_spec s :
  PyStr.join " " (PyStr.split " " s) = s
  /\ Forall (fun t => PyStr.contains " " t = false) (PyStr.split " " s).
Proof.
  unfold PyStr.split. induction s as [|c s [IHj IHf]]; [by repeat constructor|].
  cbn [PyStr.split_go].
  rewrite (prefix_char " " c s : String.prefix " " (String c s) = _).
  pose proof (split_go_nonempty " " s 0) as Hne.
  destruct (PyStr.split_go " " s 0) as [|t ts] eqn:Hs; [done|].
  destruct (Ascii.eqb " " c) eqn:Hc.
  - apply Ascii.eqb_eq in Hc as <-. simpl String.length. simpl Nat.sub.
    rewrite Hs. split.
    + by rewrite <- IHj.
    + by constructor.
  - split.
    + rewrite <- IHj. by destruct ts.
    + inversion IHf as [|? ? Ht Hts]; subst. constructor; [|done].
      cbn [PyStr.contains].
      rewrite (prefix_char " " c t : String.prefix " " (String c t) = _).
      by rewrite Hc, Ht.
Qed.

(** The Standard branch of [height_weight], once the cell with the exact
    text "Standard" has been found in the height cell. *)
Lemma height_weight_standard soup cpi cell6 std6 :
  cpi !! 6%nat = Some cell6 ->
  find cell6 td_standard = Some std6 ->
  height_weight soup cpi
  = (cell7 <- subscript cpi 7 ;;
     next6 <- getattr (find_next soup std6 (is_tag "td")) "text" ;;
     std7 <- getattr (find cell7 td_standard) "findNext" ;;
     next7 <- getattr (find_next soup std7 (is_tag "td")) "text" ;;
     ret (PyStr.split " " (space_after_quote (text (obj next6))),
          PyStr.split " " (PyStr.replace "lbs" "lbs " (text (obj next7))))).
Proof.
  intros H6 Hstd.
  unfold height_weight. rewrite (subscript_Some _ _ _ H6), bind_ret_l. cbv zeta. rewrite Hstd.
  apply bind_ext. intros cell7. apply bind_ext. intros next6.
  by rewrite replace_quote_spec.
Qed.

(** C7, as the code has it.  When the height cell holds a cell whose text
    is exactly "Standard", every height that [height_weight] returns is
    made of the text of the cell that follows it, a space inserted after
    each quote character, split on spaces: the tokens hold no space and,
    joined by spaces, give that text back.  It does return such a height
    whenever the cells the branch reads are present. *)
Theorem standard_height_inserts_space_after_quote soup cpi cell6 std6 :
  cpi !! 6%nat = Some cell6 ->
  find cell6 td_standard = Some std6 ->
  (forall hw,
      height_weight soup cpi = ([], Return hw) ->
      exists next6,
        find_next soup std6 (is_tag "td") = Some next6
        /\ fst hw = PyStr.split " " (space_after_quote (text (obj next6)))
        /\ PyStr.join " " (fst hw) = space_after_quote (text (obj next6))
        /\ Forall (fun t => PyStr.contains " " t = false) (fst hw))
  /\ (forall cell7 next6 std7 next7,
        cpi !! 7%nat = Some cell7 ->
        find_next soup std6 (is_tag "td") = Some next6 ->
        find cell7 td_standard = Some std7 ->
        find_next soup std7 (is_tag "td") = Some next7 ->
        exists w,
          height_weight soup cpi
          = ([], Return (PyStr.split " "
                           (space_after_quote (text (obj next6))), w))).
Proof.
  intros H6 Hstd. rewrite (height_weight_standard soup cpi cell6 std6 H6 Hstd).
  split.
  - intros hw H.
    apply bind_Return_inv in H as (? & cell7 & ? & _ & H & _).
    apply bind_Return_inv in H as (? & next6 & ? & Hn6 & H & _).
    apply bind_Return_inv in H as (? & std7 & ? & _ & H & _).
    apply bind_Return_inv in H as (? & next7 & ? & _ & H & _).
    apply ret_Return_inv in H as [<- _].
    apply getattr_Return_inv in Hn6 as [Hn6 _].
    exists next6. cbn [fst].
    destruct (split_space_spec (space_after_quote (text (obj next6)))).
    done.
  - intros cell7 next6 std7 next7 H7 Hn6 Hs7 Hn7.
    rewrite (subscript_Some _ _ _ H7), bind_ret_l. cbv beta.
    rewrite (getattr_Some _ "text" _ Hn6), bind_ret_l. cbv beta.
    rewrite (getattr_Some _ "findNext" _ Hs7), bind_ret_l. cbv beta.
    rewrite (getattr_Some _ "text" _ Hn7), bind_ret_l. cbv beta.
    by eexists.
Qed.

Lemma standard_height_of_standard_page :
  exists w,
    height_weight Samples.standard_page Samples.standard_info
    = ([], Return (PyStr.split " "
                     (space_after_quote (text (obj Samples.next6))), w)).
Proof.
  destruct (standard_height_inserts_space_after_quote Samples.standard_page
              Samples.standard_info Samples.cell6 Samples.std6) as [_ H].
  - vm_compute. reflexivity.
  - vm_compute. reflexivity.
  - apply (H Samples.cell7 Samples.next6 Samples.std7 Samples.next7);
      vm_compute; reflexivity.
Defined.

(** C7, as the specification states it, fails: on the sample page the
    height tokens are not those of the text with a space put before the
    quote character. *)
Lemma standard_height_not_space_before_quote :
  ~ (forall soup cpi cell6 std6 next6 hw,
        cpi !! 6%nat = Some cell6 ->
        find cell6 td_standard = Some std6 ->
        find_next soup std6 (is_tag "td") = Some next6 ->
        height_weight soup cpi = ([], Return hw) ->
        fst hw = PyStr.split " " (space_before_quote (text (obj next6)))).
Proof.
  intros H.
  specialize (H Samples.standard_page Samples.standard_info Samples.cell6
                Samples.std6 Samples.next6
                (PyStr.split " " (space_after_quote (text (obj Samples.next6))),
                 PyStr.split " " (PyStr.replace "lbs" "lbs "
                                    (text (obj Samples.next7))))).
  assert (Hfalse : PyStr.split " "
                     (space_after_quote (text (obj Samples.next6)))
                   = PyStr.split " "
                       (space_before_quote (text (obj Samples.next6)))).
  { apply H; vm_compute; reflexivity. }
  vm_compute in Hfalse. discriminate.
Qed.

(** ** The definitions at work *)

Example split_on_a_longer_separator :
  PyStr.split "ab" "1ab2abab3" = ["1"; "2"; EmptyString; "3"].
Proof. reflexivity. Qed.

Example replace_lbs :
  PyStr.replace "lbs" "lbs " "15.2lbs6.9kg" = "15.2lbs 6.9kg".
Proof. reflexivity. Qed.

Example zfill_of_ids :
  PyStr.zfill 3 (PyStr.str 25) = "025"
  /\ PyStr.zfill 3 (PyStr.str (-1)) = "-01"
  /\ PyStr.zfill 3 (PyStr.str 1025) = "1025"
  /\ PyStr.zfill 3 (PyStr.str 0) = "000".
Proof. repeat split; reflexivity. Qed.

Example int_of_cells :
  PyStr.int " 45 " = Some 45 /\ PyStr.int "-1_0" = Some (-10)
  /\ PyStr.int "4 5" = None /\ PyStr.int EmptyString = None
  /\ PyStr.int "1__0" = None /\ PyStr.int "+ 5" = None
  /\ PyStr.int "007" = Some 7.
Proof. repeat split; reflexivity. Qed.

(** [str.strip()] takes the separator U+001C away, [int] does not step over
    it; both step over U+00A0. *)
Example int_and_strip_on_separators :
  PyStr.strip MorePages.separator_45 = "45"
  /\ PyStr.int MorePages.separator_45 = None
  /\ PyStr.int (String (Ascii.ascii_of_nat 160) "45") = Some 45
  /\ PyStr.strip (String (Ascii.ascii_of_nat 160) "45") = "45".
Proof. repeat split; reflexivity. Qed.

(** [int] reads 4300 digits and refuses 4301, whatever their value. *)
Example int_digit_limit :
  PyStr.int (PyStr.zeros 4299 +:+ "7") = Some 7
  /\ PyStr.int (PyStr.zeros 4300 +:+ "7") = None
  /\ PyStr.int ("-" +:+ PyStr.zeros 4299 +:+ "_7") = Some (-7).
Proof. repeat split; vm_compute; reflexivity. Qed.

Example height_of_both_layouts :
  exists r1 r2,
    extracts Samples.web 1 r1 /\ extracts Samples.web 2 r2
    /\ height r1 = ["2'04" +:+ PyStr.quote; EmptyString]
    /\ height r2 = ["2'04" +:+ PyStr.quote; "0.7m"].
Proof.
  eexists _, _. split; [|split]; [unfold extracts; vm_compute; reflexivity..|].
  split; vm_compute; reflexivity.
Qed.

(** * Further properties of the code *)

(** ** [validate_input] *)

(** X1.  [validate_input] never raises.  It exits exactly when one of its
    inputs is 1026 or more, and then with no status and after the one error
    record; no input makes it exit with a status of its own.  Whatever it
    returns is the first input unchanged with the larger of the two inputs,
    a non-empty range below 1026, nothing having been logged. *)
Theorem validate_input_postcondition (first_id last_id : Z) :
  (forall ex, snd (validate_input first_id last_id) <> Raise ex)
  /\ (snd (validate_input first_id last_id) = SystemExit None
      <-> 1026 <= first_id \/ 1026 <= last_id)
  /\ (forall t c,
        validate_input first_id last_id = (t, SystemExit c) ->
        c = None /\ t = [unsupported_record]
        /\ (1026 <= first_id \/ 1026 <= last_id))
  /\ (forall t f l,
        validate_input first_id last_id = (t, Return (f, l)) ->
        t = [] /\ f = first_id /\ l = Z.max first_id last_id
        /\ f <= l < 1026).
Proof.
  destruct (Z_lt_le_dec first_id 1026) as [Hf|Hf];
    [destruct (Z_lt_le_dec last_id 1026) as [Hl|Hl]|].
  - rewrite (validate_input_in_range _ _ Hf Hl). simpl.
    split; [done|]. split; [split; [done|lia]|]. split; [done|].
    intros t f l [= <- <- <-].
    destruct (Z.ltb_spec last_id first_id); repeat split; lia.
  - rewrite (validate_input_out_of_range first_id last_id) by (by right).
    split; [done|]. split; [split; [by right|done]|]. split; [|done].
    intros t c [= <- <-]. repeat split. by right.
  - rewrite (validate_input_out_of_range first_id last_id) by (by left).
    split; [done|]. split; [split; [by left|done]|]. split; [|done].
    intros t c [= <- <-]. repeat split. by left.
Qed.

(** X2.  Checking a checked range changes nothing: on the pair that
    [validate_input] returned it returns the same pair. *)
Theorem validate_input_idempotent (first_id last_id : Z) t f l :
  validate_input first_id last_id = (t, Return (f, l)) ->
  validate_input f l = ([], Return (f, l)).
Proof.
  intros H.
  destruct (Z_lt_le_dec first_id 1026) as [Hf|Hf];
    [destruct (Z_lt_le_dec last_id 1026) as [Hl|Hl]|].
  - rewrite (validate_input_in_range _ _ Hf Hl) in H.
    injection H as _ <- <-.
    destruct (Z.ltb_spec last_id first_id) as [Hlt|Hge].
    + rewrite validate_input_in_range by lia.
      destruct (Z.ltb_spec first_id first_id); [lia|done].
    + rewrite validate_input_in_range by lia.
      destruct (Z.ltb_spec last_id first_id); [lia|done].
  - by rewrite (validate_input_out_of_range first_id last_id) in H
      by (by right).
  - by rewrite (validate_input_out_of_range first_id last_id) in H
      by (by left).
Qed.

Lemma validate_input_idempotent_7_3 :
  validate_input 7 7 = ([], Return (7, 7)).
Proof.
  apply (validate_input_idempotent 7 3 [] 7 7). vm_compute. reflexivity.
Defined.

(** ** [scrape_pokemon] and [main] *)

(** X3.  Called with a last ID below the first, [scrape_pokemon] requests no
    page and displays nothing; with the save flag it still writes the
    output file, holding the empty list. *)
Theorem scrape_pokemon_empty_range web (args : arguments)
  (first_id last_id : Z) :
  last_id < first_id ->
  scrape_pokemon web first_id last_id args = (closing args [], Return tt)
  /\ fetched (fst (scrape_pokemon web first_id last_id args)) = []
  /\ displayed (fst (scrape_pokemon web first_id last_id args)) = []
  /\ written (fst (scrape_pokemon web first_id last_id args))
     = (if save args then [[]] else []).
Proof.
  intros Hlt.
  assert (Hrun : scrape_pokemon web first_id last_id args
                 = (closing args [], Return tt)).
  { unfold scrape_pokemon, id_range. rewrite seqZ_nil by lia. simpl.
    unfold closing. by destruct (save args). }
  rewrite Hrun. cbn [fst].
  destruct (closing_shows args []) as (-> & -> & ->). done.
Qed.

Lemma scrape_pokemon_empty_range_5_2 :
  written (fst (scrape_pokemon Samples.web 5 2 (Arguments true 5 2 false)))
  = [[]].
Proof.
  destruct (scrape_pokemon_empty_range Samples.web (Arguments true 5 2 false)
              5 2) as (_ & _ & _ & H).
  - lia.
  - exact H.
Defined.

(** X4.  Through [main] the range is never empty: a run with valid
    arguments requests the page of the first ID before anything else after
    the start record, also when the last ID given is below the first. *)
Theorem main_always_fetches_first_id web (args : arguments) :
  first args < 1026 -> last args < 1026 ->
  exists t, fst (main web args)
            = start_record :: EvGet (page_url (first args)) :: t.
Proof.
  intros Hf Hl.
  assert (Hids : exists ids, run_ids args = first args :: ids).
  { unfold run_ids, id_range.
    exists (seqZ (Z.succ (first args))
              (Z.pred ((if last args <? first args then first args
                        else last args) + 1 - first args))).
    apply seqZ_cons. destruct (Z.ltb_spec (last args) (first args)); lia. }
  destruct Hids as [ids Hids].
  destruct (main_in_range web args Hf Hl) as
    [(rs & Hrs & ->)|(k & j & rs & lg & e & Hk & Hrs & _ & ->)];
    rewrite Hids in *; cbn [fst].
  - inversion Hrs as [|? r ? rs' _ _]; subst. simpl. by eexists.
  - destruct k as [|k].
    + injection Hk as <-. inversion Hrs; subst. simpl. by eexists.
    + inversion Hrs as [|? r ? rs' _ _]; subst. simpl. by eexists.
Qed.

Lemma main_fetches_id_5_first :
  exists t, fst (main Samples.web (Arguments false 5 2 false))
            = start_record :: EvGet (page_url 5) :: t.
Proof.
  apply (main_always_fetches_first_id Samples.web (Arguments false 5 2 false));
    simpl; lia.
Defined.

Lemma validate_input_postcondition_5_2 :
  (([] : list event) = [] /\ 5 = 5 /\ 5 = Z.max 5 2 /\ 5 <= 5 < 1026)
  /\ ((None : option Z) = None /\ [unsupported_record] = [unsupported_record]
      /\ (1026 <= 1026 \/ 1026 <= 1)).
Proof.
  split.
  - destruct (validate_input_postcondition 5 2) as (_ & _ & _ & H).
    apply (H [] 5 5). vm_compute. reflexivity.
  - destruct (validate_input_postcondition 1026 1) as (_ & _ & H & _).
    apply (H [unsupported_record] None). vm_compute. reflexivity.
Defined.

Lemma run_ids_all_or_first_failure web (args : arguments) k j rs lg e :
  run_ids args !! k = Some j ->
  extract_statistics web j = (failure_trace j lg, Raise e) ->
  Forall2 (extracts web) (take k (run_ids args)) rs ->
  ~ (forall i, i ∈ run_ids args -> exists d, extracts web i d).
Proof.
  intros Hk Hj _ Hall.
  destruct (Hall j (list_elem_of_lookup_2 _ _ _ Hk)) as [d Hd].
  unfold extracts in Hd. by rewrite Hj in Hd.
Qed.

(** X5.  The exit status of a run is 0 exactly when the range is rejected
    or every ID of the range is extracted, and 1 otherwise: a rejected
    range and a complete batch look the same to the caller. *)
Theorem main_exit_status web (args : arguments) :
  (exit_status (snd (main web args)) = 0
   <-> (1026 <= first args \/ 1026 <= last args)
       \/ (forall i, i ∈ run_ids args -> exists d, extracts web i d))
  /\ (exit_status (snd (main web args)) = 0
      \/ exit_status (snd (main web args)) = 1).
Proof.
  destruct (Z_lt_le_dec (first args) 1026) as [Hf|Hf];
    [destruct (Z_lt_le_dec (last args) 1026) as [Hl|Hl]|].
  - destruct (main_in_range web args Hf Hl) as
      [(rs & Hrs & ->)|(k & j & rs & lg & e & Hk & Hrs & Hj & ->)]; simpl.
    + split; [|by left]. split; [|done]. intros _. right. intros i Hi.
      apply list_elem_of_lookup in Hi as [n Hn].
      destruct (Forall2_lookup_l _ _ _ _ _ Hrs Hn) as (d & _ & Hd).
      by exists d.
    + split; [|by right]. split; [done|]. intros [[?|?]|Hall]; [lia..|].
      by destruct (run_ids_all_or_first_failure web args k j rs lg e).
  - rewrite main_out_of_range by (by right). simpl.
    split; [|by left]. split; [|done]. intros _. left. by right.
  - rewrite main_out_of_range by (by left). simpl.
    split; [|by left]. split; [|done]. intros _. left. by left.
Qed.

(** X6.  When an ID of a valid range cannot be extracted, the run displays
    the records of the IDs before the first such ID and no other, writes no
    file, logs the exception as its last action, and lets that same
    exception reach the interpreter. *)
Theorem main_fails_fast web (args : arguments) :
  first args < 1026 -> last args < 1026 ->
  (exists i, i ∈ run_ids args /\ forall d, ~ extracts web i d) ->
  exists (k : nat) j rs t ex,
    run_ids args !! k = Some j
    /\ (forall d, ~ extracts web j d)
    /\ Forall2 (extracts web) (take k (run_ids args)) rs
    /\ main web args = (start_record :: t ++ [EvLogExn ex], Raise ex)
    /\ fetched t = map page_url (take (S k) (run_ids args))
    /\ displayed t = (if verbose args || negb (save args) then rs else [])
    /\ written t = [].
Proof.
  intros Hf Hl (i & Hi & Hno).
  destruct (main_in_range web args Hf Hl) as
    [(rs & Hrs & _)|(k & j & rs & lg & e & Hk & Hrs & Hj & ->)].
  - exfalso. apply list_elem_of_lookup in Hi as [n Hn].
    destruct (Forall2_lookup_l _ _ _ _ _ Hrs Hn) as (d & _ & Hd).
    by apply (Hno d).
  - exists k, j, rs,
      (success_trace args (take k (run_ids args)) rs ++ failure_trace j lg), e.
    pose proof (Forall2_length _ _ _ Hrs) as Hlen.
    destruct (success_trace_shows args _ _ Hlen) as (Hfe & Hd & Hw).
    destruct (failure_trace_shows j lg) as (Hfe' & Hd' & Hw').
    repeat split.
    + done.
    + intros d Hd0. unfold extracts in Hd0. by rewrite Hj in Hd0.
    + done.
    + by rewrite <- app_assoc.
    + rewrite fetched_app, Hfe, Hfe'.
      by rewrite (take_S_r _ _ _ Hk), map_app.
    + rewrite displayed_app, Hd, Hd'. by rewrite app_nil_r.
    + by rewrite written_app, Hw, Hw'.
Qed.

Lemma main_fails_fast_at_id_3 :
  exists (k : nat) j rs t ex,
    run_ids (Arguments true 1 4 true) !! k = Some j
    /\ (forall d, ~ extracts Samples.web j d)
    /\ Forall2 (extracts Samples.web)
         (take k (run_ids (Arguments true 1 4 true))) rs
    /\ main Samples.web (Arguments true 1 4 true)
       = (start_record :: t ++ [EvLogExn ex], Raise ex)
    /\ fetched t = map page_url (take (S k) (run_ids (Arguments true 1 4 true)))
    /\ displayed t = rs
    /\ written t = [].
Proof.
  apply (main_fails_fast Samples.web (Arguments true 1 4 true)).
  - simpl. lia.
  - simpl. lia.
  - exists 3. split.
    + vm_compute. do 2 apply list_elem_of_further. apply list_elem_of_here.
    + intros d. unfold extracts. vm_compute. discriminate.
Defined.

(** X7.  A run whose range is rejected requests no page.  A run whose
    range is accepted requests the pages of the first [k] IDs of the range,
    one request per ID in the order of the range, where [k] is at least 1
    and is fixed by the first failure: every ID requested before the last
    request was extracted, and when the run stops before the end of the
    range, or raises, the ID requested last was not.  So no ID is skipped,
    none is requested after a failure, and a run that ends normally has
    requested the whole range and extracted its last ID too. *)
Theorem main_fetches_a_prefix web (args : arguments) :
  (1026 <= first args \/ 1026 <= last args ->
   fetched (fst (main web args)) = [])
  /\ (first args < 1026 -> last args < 1026 ->
      exists k : nat,
        fetched (fst (main web args)) = map page_url (take (S k) (run_ids args))
        /\ (k < length (run_ids args))%nat
        /\ (forall n i, (n < k)%nat -> run_ids args !! n = Some i ->
              exists d, extracts web i d)
        /\ (forall j, run_ids args !! k = Some j ->
              (S k < length (run_ids args))%nat
              \/ snd (main web args) <> Return tt ->
              forall d, ~ extracts web j d)
        /\ (snd (main web args) = Return tt ->
            S k = length (run_ids args)
            /\ forall j, run_ids args !! k = Some j ->
                  exists d, extracts web j d)).
Proof.
  split.
  { intros H. by rewrite main_out_of_range by done. }
  intros Hf Hl.
  destruct (run_ids_first args) as [ids Hids].
  destruct (main_in_range web args Hf Hl) as
    [(rs & Hrs & Hm)|(k & j & rs & lg & e & Hk & Hrs & Hj & Hm)];
    rewrite Hm; cbn [fst snd]; pose proof (Forall2_length _ _ _ Hrs) as Hlen;
    destruct (success_trace_shows args _ _ Hlen) as (Hfe & _ & _);
    change (start_record :: ?t) with ([start_record] ++ t);
    rewrite !fetched_app, Hfe.
  - exists (length ids).
    destruct (closing_shows args rs) as (-> & _ & _).
    assert (Hall : S (length ids) = length (run_ids args))
      by (by rewrite Hids).
    rewrite Hall, firstn_all. simpl. rewrite app_nil_r.
    split; [done|]. split; [lia|]. split; [|split].
    + intros n i _ Hn.
      destruct (Forall2_lookup_l _ _ _ _ _ Hrs Hn) as (d & _ & Hd).
      by exists d.
    + intros j _ [Hlt|Hne]; [lia|done].
    + intros _. split; [done|]. intros j Hj.
      destruct (Forall2_lookup_l _ _ _ _ _ Hrs Hj) as (d & _ & Hd).
      by exists d.
  - exists k. destruct (failure_trace_shows j lg) as (-> & _ & _).
    rewrite (take_S_r _ _ _ Hk), map_app. simpl.
    split; [done|]. split; [by apply lookup_lt_Some in Hk|].
    split; [|split].
    + intros n i Hn Hi.
      assert (Hi' : take k (run_ids args) !! n = Some i)
        by (by rewrite lookup_take_lt).
      destruct (Forall2_lookup_l _ _ _ _ _ Hrs Hi') as (d & _ & Hd).
      by exists d.
    + intros j' Hj' _ d Hd. rewrite Hk in Hj'. injection Hj' as <-.
      unfold extracts in Hd. by rewrite Hj in Hd.
    + done.
Qed.

Lemma main_fetches_three_pages :
  fetched (fst (main Samples.web (Arguments true 1026 1 true))) = []
  /\ exists k : nat,
       fetched (fst (main Samples.web (Arguments true 1 4 true)))
       = map page_url (take (S k) [1; 2; 3; 4])
       /\ (k < 4)%nat
       /\ (forall n i, (n < k)%nat -> [1; 2; 3; 4] !! n = Some i ->
             exists d, extracts Samples.web i d)
       /\ (forall j, [1; 2; 3; 4] !! k = Some j ->
             (S k < 4)%nat
             \/ snd (main Samples.web (Arguments true 1 4 true)) <> Return tt ->
             forall d, ~ extracts Samples.web j d)
       /\ (snd (main Samples.web (Arguments true 1 4 true)) = Return tt ->
           S k = 4%nat
           /\ forall j, [1; 2; 3; 4] !! k = Some j ->
                 exists d, extracts Samples.web j d).
Proof.
  destruct (main_fetches_a_prefix Samples.web (Arguments true 1026 1 true))
    as [Hnone _].
  destruct (main_fetches_a_prefix Samples.web (Arguments true 1 4 true))
    as [_ Hsome].
  split.
  - apply Hnone. left. simpl. lia.
  - apply Hsome; simpl; lia.
Defined.

(** X8.  The flags decide the outputs and nothing else does: without the
    save flag no file is written, whatever happens; with the save flag and
    without the verbose flag nothing is displayed; and when a run with both
    flags ends normally, the batch written is the list of the records
    displayed, in the order displayed. *)
Theorem outputs_follow_the_flags web (args : arguments) :
  (save args = false -> written (fst (main web args)) = [])
  /\ (save args = true -> verbose args = false ->
      displayed (fst (main web args)) = [])
  /\ (save args = true -> verbose args = true ->
      snd (main web args) = Return tt ->
      written (fst (main web args)) = [displayed (fst (main web args))]).
Proof.
  repeat split.
  - intros Hs. destruct (written (fst (main web args))) as [|d ds] eqn:Hw;
      [done|].
    assert (Hj : json_effect (fst (main web args)))
      by (unfold json_effect; by rewrite Hw).
    apply json_needs_save in Hj. congruence.
  - intros Hs Hv.
    destruct (displayed (fst (main web args))) as [|d ds] eqn:Hd; [done|].
    assert (Hc : console_effect (fst (main web args)))
      by (unfold console_effect; by rewrite Hd).
    apply console_needs_display in Hc. by rewrite Hs, Hv in Hc.
  - intros Hs Hv Hret.
    destruct (Z_lt_le_dec (first args) 1026) as [Hf|Hf];
      [destruct (Z_lt_le_dec (last args) 1026) as [Hl|Hl]|].
    + destruct (main_in_range web args Hf Hl) as
        [(rs & Hrs & Hm)|(k & j & rs & lg & e & _ & _ & _ & Hm)];
        rewrite Hm in *; [|done]. cbn [fst].
      pose proof (Forall2_length _ _ _ Hrs) as Hlen.
      destruct (success_trace_shows args _ _ Hlen) as (_ & Hd & Hw).
      destruct (closing_shows args rs) as (_ & Hd' & Hw').
      change (start_record :: ?t) with ([start_record] ++ t).
      rewrite !written_app, !displayed_app, Hd, Hw, Hd', Hw', Hs, Hv.
      simpl. by rewrite app_nil_r.
    + by rewrite main_out_of_range in Hret by (by right).
    + by rewrite main_out_of_range in Hret by (by left).
Qed.

Lemma outputs_follow_the_flags_sample :
  written (fst (main Samples.web (Arguments true 1 2 true)))
  = [displayed (fst (main Samples.web (Arguments true 1 2 true)))].
Proof.
  destruct (outputs_follow_the_flags Samples.web (Arguments true 1 2 true))
    as (_ & _ & H).
  apply H; [reflexivity|reflexivity|vm_compute; reflexivity].
Defined.

(** ** The other move tables *)

Lemma identify_needs_tm_anchor soup :
  find (root soup) (a_named "tmhm") = None ->
  exists ex, identify soup = ([], Raise ex).
Proof.
  intros Hnone.
  destruct (quiet_cases _ (quiet_identify soup)) as [[found Hid]|[ex Hid]];
    [exfalso|by exists ex].
  apply identify_inv in Hid
    as (_ & _ & _ & _ & _ & _ & _ & _ & _ & _ & _ & Ht & _).
  unfold extract_tm_hm_moves, anchor_table in Ht. by rewrite Hnone in Ht.
Qed.

(** X9.  The TM/HM moves follow the rule of the level-up moves, on the
    anchor named "tmhm": without the anchor extraction raises and logs the
    URL; with it, [tm_hm_moves] holds ["<tm>: <move>"] for every row, after
    the first two, of the enclosing table that has at least two cells. *)
Theorem tm_hm_moves_from_anchor_table web poke_id soup :
  web (page_url poke_id) = Page soup ->
  match find (root soup) (a_named "tmhm") with
  | None =>
    exists ex,
      extract_statistics web poke_id
      = ([EvGet (page_url poke_id);
          EvLog ERROR (identify_error (page_url poke_id))], Raise ex)
  | Some a =>
    extract_tm_hm_moves soup
    = ([], Return (level_up_spec (enclosing_rows soup a)))
    /\ (forall data, extracts web poke_id data ->
          tm_hm_moves data = level_up_spec (enclosing_rows soup a))
  end.
Proof.
  intros Hweb.
  destruct (find (root soup) (a_named "tmhm")) as [a|] eqn:Ha.
  - assert (Hspec : extract_tm_hm_moves soup
                    = ([], Return (level_up_spec (enclosing_rows soup a)))).
    { unfold extract_tm_hm_moves, anchor_table. rewrite Ha. simpl.
      rewrite pair_rows_spec. unfold level_up_spec, enclosing_rows, table_rows.
      by destruct (find_parent soup a (is_tag "table")). }
    split; [done|]. intros data Hex.
    apply extracts_inv in Hex as (soup2 & found & Hweb2 & Hid & Has).
    rewrite Hweb in Hweb2. injection Hweb2 as <-.
    apply identify_inv in Hid
      as (_ & _ & _ & _ & _ & _ & _ & _ & _ & _ & _ & Ht & _).
    apply assemble_fields in Has as (_ & _ & _ & _ & _ & -> & _).
    rewrite Hspec in Ht. by injection Ht as <-.
  - destruct (identify_needs_tm_anchor soup Ha) as [ex Hid].
    exists ex. by apply (extract_identify_raises web poke_id soup).
Qed.

Lemma tm_hm_moves_of_the_samples :
  (exists ex,
      extract_statistics MorePages.web 15
      = ([EvGet (page_url 15); EvLog ERROR (identify_error (page_url 15))],
         Raise ex))
  /\ extract_tm_hm_moves Samples.standard_page
     = ([], Return ["TM001: Take Down"; "TM098: Skill Swap (swaps Abilities)"]).
Proof.
  split.
  - pose proof (tm_hm_moves_from_anchor_table MorePages.web 15
                  MorePages.no_tm_page eq_refl) as H.
    destruct (find (root MorePages.no_tm_page) (a_named "tmhm"))
      as [a|] eqn:Ha; [vm_compute in Ha; discriminate|].
    exact H.
  - pose proof (tm_hm_moves_from_anchor_table MorePages.web 1
                  Samples.standard_page eq_refl) as H.
    destruct (find (root Samples.standard_page) (a_named "tmhm"))
      as [a|] eqn:Ha; [|vm_compute in Ha; discriminate].
    destruct H as (H & _). rewrite H.
    vm_compute in Ha. injection Ha as <-. vm_compute. reflexivity.
Defined.

Lemma egg_rows_spec rows moves :
  egg_rows rows moves
  = moves ++ map (fun row => cell_text row 0)
               (List.filter has_two_cells rows).
Proof.
  revert moves. induction rows as [|row rows IH]; intros moves; simpl.
  - by rewrite app_nil_r.
  - destruct (find_all row (is_tag "td")) as [|c0 [|c1 cs]] eqn:Hcells;
      rewrite IH.
    + replace (has_two_cells row) with false
        by (unfold has_two_cells, cells; by rewrite Hcells). done.
    + replace (has_two_cells row) with false
        by (unfold has_two_cells, cells; by rewrite Hcells). done.
    + replace (has_two_cells row) with true
        by (unfold has_two_cells, cells; by rewrite Hcells).
      simpl. rewrite <- app_assoc. do 2 f_equal.
      unfold cell_text, cells. by rewrite Hcells.
Qed.

(** X10.  The egg-move extractor always returns.  Without the anchor named
    "eggmoves" it returns the empty list; with it, the stripped text of
    cell 0 of every row, after the first two, of the enclosing table that
    has at least two cells: a row with a single cell gives nothing, though
    only its first cell would be read. *)
Theorem egg_moves_never_fatal soup :
  extract_egg_moves soup
  = ([], Return match find (root soup) (a_named "eggmoves") with
                | Some a => egg_spec (enclosing_rows soup a)
                | None => []
                end)
  /\ (forall web poke_id data,
        web (page_url poke_id) = Page soup ->
        extracts web poke_id data ->
        extract_egg_moves soup = ([], Return (egg_moves data))).
Proof.
  split.
  - unfold extract_egg_moves, anchor_table.
    destruct (find (root soup) (a_named "eggmoves")) as [a|]; simpl; [|done].
    rewrite egg_rows_spec. unfold egg_spec, enclosing_rows, table_rows.
    by destruct (find_parent soup a (is_tag "table")).
  - intros web poke_id data Hweb Hex.
    apply extracts_inv in Hex as (soup2 & found & Hweb2 & Hid & Has).
    rewrite Hweb in Hweb2. injection Hweb2 as <-.
    apply identify_inv in Hid
      as (_ & _ & _ & _ & _ & _ & _ & _ & _ & _ & _ & _ & He & _).
    by apply assemble_fields in Has as (_ & _ & _ & _ & _ & _ & ->).
Qed.

Lemma egg_moves_skip_one_cell_rows :
  extract_egg_moves MorePages.sparse_egg_page
  = ([], Return ["Curse"; "Ingrain"]).
Proof.
  destruct (egg_moves_never_fatal MorePages.sparse_egg_page) as [H _].
  rewrite H. vm_compute. reflexivity.
Defined.

(** ** Failures outside the [try] block *)

Lemma int_cell_eq cs i :
  int_cell cs i
  = match cs !! i with
    | Some c =>
      match PyStr.int (text (obj c)) with
      | Some z => ret z
      | None => raise (ValueError (text (obj c)))
      end
    | None => raise IndexError
    end.
Proof.
  unfold int_cell, subscript. destruct (cs !! i) as [c|]; [|done].
  by rewrite bind_ret_l.
Qed.

Lemma int_cell_stat found i z :
  stat found i = Some z -> int_cell (base_stats_td found) i = ret z.
Proof.
  unfold stat. rewrite int_cell_eq.
  destruct (base_stats_td found !! i) as [c|]; [|done]. by intros ->.
Qed.

Lemma int_cell_no_stat found i :
  stat found i = None ->
  int_cell (base_stats_td found) i
  = raise match base_stats_td found !! i with
          | Some c => ValueError (text (obj c))
          | None => IndexError
          end.
Proof.
  unfold stat. rewrite int_cell_eq.
  destruct (base_stats_td found !! i) as [c|]; [|done]. by intros ->.
Qed.

Lemma int_cell_Return_stat found i t z :
  int_cell (base_stats_td found) i = (t, Return z) -> stat found i = Some z.
Proof.
  unfold stat. rewrite int_cell_eq.
  destruct (base_stats_td found !! i) as [c|]; [|done].
  destruct (PyStr.int (text (obj c))); [|done]. by intros [= _ ->].
Qed.

Lemma height_weight_cells soup cpi t hw :
  height_weight soup cpi = (t, Return hw) ->
  exists c7, cpi !! 7%nat = Some c7.
Proof.
  unfold height_weight. intros H.
  apply bind_Return_inv in H as (? & c6 & ? & _ & H & _). cbv zeta in H.
  apply bind_Return_inv in H as (? & c7 & ? & H7 & _ & _).
  apply subscript_Return_inv in H7 as [H7 _]. by exists c7.
Qed.

(** Once the [try] block is through, the name and classification cells are
    there: the block has read cell 7. *)
Lemma identified_info_cells soup found :
  identify soup = ([], Return found) ->
  exists c1 c5,
    center_panel_info found !! 1%nat = Some c1
    /\ center_panel_info found !! 5%nat = Some c5.
Proof.
  intros Hid. apply identify_inv in Hid as (_ & hw & _ & _ & _ & Hhw & _).
  apply height_weight_cells in Hhw as [c7 H7].
  apply lookup_lt_Some in H7.
  destruct (lookup_lt_is_Some_2 (center_panel_info found) 1) as [c1 H1]; [lia|].
  destruct (lookup_lt_is_Some_2 (center_panel_info found) 5) as [c5 H5]; [lia|].
  by exists c1, c5.
Qed.

(** X11.  [extract_statistics] logs the error record with the URL exactly
    when the page was fetched and the [try] block raised: a failed request,
    and a failure of the conversions after the block, raise without it. *)
Theorem url_is_logged_iff_try_block_raises web poke_id :
  In (EvLog ERROR (identify_error (page_url poke_id)))
     (fst (extract_statistics web poke_id))
  <-> exists soup ex,
        web (page_url poke_id) = Page soup
        /\ identify soup = ([], Raise ex).
Proof.
  destruct (web (page_url poke_id)) as [|soup] eqn:Hweb.
  - rewrite (extract_connection_failed web _ Hweb). simpl.
    split; [by intros [|[]]|by intros (? & ? & ? & _)].
  - destruct (quiet_cases _ (quiet_identify soup)) as [[found Hid]|[ex Hid]].
    + rewrite (extract_identified web _ _ _ Hweb Hid). simpl. split.
      * by intros [|[]].
      * intros (s2 & ex & [= <-] & H). by rewrite Hid in H.
    + rewrite (extract_identify_raises web _ _ _ Hweb Hid). simpl. split.
      * intros _. by exists soup, ex.
      * intros _. right. by left.
Qed.

(** X12.  The five statistics are converted after the [try] block, in the
    order HP, attack, defense, special, speed, from the sibling cells 0 to
    4.  The first of them that is missing raises [IndexError], the first
    whose text [int] does not accept raises [ValueError] with that text; in
    both cases the trace holds the request and nothing else. *)
Theorem stat_errors_raise_after_the_try_block web poke_id soup found
  (i : nat) :
  web (page_url poke_id) = Page soup ->
  identify soup = ([], Return found) ->
  (i < 5)%nat ->
  (forall j, (j < i)%nat -> is_Some (stat found j)) ->
  stat found i = None ->
  extract_statistics web poke_id
  = ([EvGet (page_url poke_id)],
     Raise match base_stats_td found !! i with
           | Some c => ValueError (text (obj c))
           | None => IndexError
           end).
Proof.
  intros Hweb Hid Hi Hbefore Hnone.
  rewrite (extract_identified web _ _ _ Hweb Hid). f_equal.
  destruct (identified_info_cells soup found Hid) as (c1 & c5 & H1 & H5).
  unfold assemble.
  rewrite (subscript_Some _ _ _ H1), bind_ret_l. cbv beta.
  rewrite (subscript_Some _ _ _ H5), bind_ret_l. cbv beta.
  assert (Hstep : forall j, (j < i)%nat ->
            exists z, int_cell (base_stats_td found) j = ret z).
  { intros j Hj. destruct (Hbefore j Hj) as [z Hz].
    exists z. by apply int_cell_stat. }
  pose proof (int_cell_no_stat found i Hnone) as Hstop.
  destruct i as [|[|[|[|[|i]]]]]; [| | | | |lia].
  - by rewrite Hstop.
  - destruct (Hstep 0%nat) as [z0 ->]; [lia|]. rewrite bind_ret_l. cbv beta.
    by rewrite Hstop.
  - destruct (Hstep 0%nat) as [z0 ->]; [lia|]. rewrite bind_ret_l. cbv beta.
    destruct (Hstep 1%nat) as [z1 ->]; [lia|]. rewrite bind_ret_l. cbv beta.
    by rewrite Hstop.
  - destruct (Hstep 0%nat) as [z0 ->]; [lia|]. rewrite bind_ret_l. cbv beta.
    destruct (Hstep 1%nat) as [z1 ->]; [lia|]. rewrite bind_ret_l. cbv beta.
    destruct (Hstep 2%nat) as [z2 ->]; [lia|]. rewrite bind_ret_l. cbv beta.
    by rewrite Hstop.
  - destruct (Hstep 0%nat) as [z0 ->]; [lia|]. rewrite bind_ret_l. cbv beta.
    destruct (Hstep 1%nat) as [z1 ->]; [lia|]. rewrite bind_ret_l. cbv beta.
    destruct (Hstep 2%nat) as [z2 ->]; [lia|]. rewrite bind_ret_l. cbv beta.
    destruct (Hstep 3%nat) as [z3 ->]; [lia|]. rewrite bind_ret_l. cbv beta.
    by rewrite Hstop.
Qed.

Lemma stat_errors_of_the_samples :
  extract_statistics MorePages.web 11
  = ([EvGet (page_url 11)], Raise (ValueError "N/A"))
  /\ extract_statistics MorePages.web 12
     = ([EvGet (page_url 12)], Raise IndexError)
  /\ extract_statistics MorePages.web 18
     = ([EvGet (page_url 18)], Raise (ValueError MorePages.separator_45)).
Proof.
  split; [|split].
  - destruct (identify MorePages.unparsable_stats_page) as [t [found|ex|c]]
      eqn:Hid; [|vm_compute in Hid; discriminate..].
    assert (Ht : t = []) by (vm_compute in Hid; by injection Hid as <- _).
    subst t.
    rewrite (stat_errors_raise_after_the_try_block MorePages.web 11
               MorePages.unparsable_stats_page found 2 eq_refl Hid).
    + vm_compute in Hid. injection Hid as <-. vm_compute. reflexivity.
    + lia.
    + vm_compute in Hid. injection Hid as <-.
      intros [|[|j]] Hj; [vm_compute; eauto..|lia].
    + vm_compute in Hid. injection Hid as <-. vm_compute. reflexivity.
  - destruct (identify MorePages.short_stats_page) as [t [found|ex|c]]
      eqn:Hid; [|vm_compute in Hid; discriminate..].
    assert (Ht : t = []) by (vm_compute in Hid; by injection Hid as <- _).
    subst t.
    rewrite (stat_errors_raise_after_the_try_block MorePages.web 12
               MorePages.short_stats_page found 3 eq_refl Hid).
    + vm_compute in Hid. injection Hid as <-. vm_compute. reflexivity.
    + lia.
    + vm_compute in Hid. injection Hid as <-.
      intros [|[|[|j]]] Hj; [vm_compute; eauto..|lia].
    + vm_compute in Hid. injection Hid as <-. vm_compute. reflexivity.
  - destruct (identify MorePages.separator_stats_page) as [t [found|ex|c]]
      eqn:Hid; [|vm_compute in Hid; discriminate..].
    assert (Ht : t = []) by (vm_compute in Hid; by injection Hid as <- _).
    subst t.
    rewrite (stat_errors_raise_after_the_try_block MorePages.web 18
               MorePages.separator_stats_page found 0 eq_refl Hid).
    + vm_compute in Hid. injection Hid as <-. vm_compute. reflexivity.
    + lia.
    + intros j Hj. lia.
    + vm_compute in Hid. injection Hid as <-. vm_compute. reflexivity.
Defined.

(** ** The record *)

Lemma assemble_ok poke_id found c1 c5 hp at_ de sp spd :
  center_panel_info found !! 1%nat = Some c1 ->
  center_panel_info found !! 5%nat = Some c5 ->
  stat found 0 = Some hp -> stat found 1 = Some at_ ->
  stat found 2 = Some de -> stat found 3 = Some sp ->
  stat found 4 = Some spd ->
  assemble poke_id found
  = ret {| name := text (obj c1);
           number := "#" +:+ PyStr.zfill 3 (PyStr.str poke_id);
           classification := text (obj c5);
           height := id_height found;
           weight := id_weight found;
           hit_points := hp;
           abilities := id_abilities found;
           attack := at_;
           defense := de;
           special := sp;
           speed := spd;
           level_up_moves := id_level_up_moves found;
           tm_hm_moves := id_tm_hm_moves found;
           egg_moves := id_egg_moves found |}.
Proof.
  intros H1 H5 H0 Ha Hd Hs Hp. unfold assemble.
  rewrite (subscript_Some _ _ _ H1), bind_ret_l. cbv beta.
  rewrite (subscript_Some _ _ _ H5), bind_ret_l. cbv beta.
  rewrite (int_cell_stat _ _ _ H0), bind_ret_l. cbv beta.
  rewrite (int_cell_stat _ _ _ Ha), bind_ret_l. cbv beta.
  rewrite (int_cell_stat _ _ _ Hd), bind_ret_l. cbv beta.
  rewrite (int_cell_stat _ _ _ Hs), bind_ret_l. cbv beta.
  by rewrite (int_cell_stat _ _ _ Hp), bind_ret_l.
Qed.

Lemma assemble_Return_inv poke_id found data :
  assemble poke_id found = ([], Return data) ->
  exists c1 c5 hp at_ de sp spd,
    center_panel_info found !! 1%nat = Some c1
    /\ center_panel_info found !! 5%nat = Some c5
    /\ stat found 0 = Some hp /\ stat found 1 = Some at_
    /\ stat found 2 = Some de /\ stat found 3 = Some sp
    /\ stat found 4 = Some spd
    /\ data = {| name := text (obj c1);
                 number := "#" +:+ PyStr.zfill 3 (PyStr.str poke_id);
                 classification := text (obj c5);
                 height := id_height found;
                 weight := id_weight found;
                 hit_points := hp;
                 abilities := id_abilities found;
                 attack := at_;
                 defense := de;
                 special := sp;
                 speed := spd;
                 level_up_moves := id_level_up_moves found;
                 tm_hm_moves := id_tm_hm_moves found;
                 egg_moves := id_egg_moves found |}.
Proof.
  unfold assemble. intros H.
  apply bind_Return_inv in H as (? & c1 & ? & H1 & H & _).
  apply bind_Return_inv in H as (? & c5 & ? & H5 & H & _).
  apply bind_Return_inv in H as (? & hp & ? & H0 & H & _).
  apply bind_Return_inv in H as (? & at_ & ? & Ha & H & _).
  apply bind_Return_inv in H as (? & de & ? & Hd & H & _).
  apply bind_Return_inv in H as (? & sp & ? & Hs & H & _).
  apply bind_Return_inv in H as (? & spd & ? & Hp & H & _).
  apply ret_Return_inv in H as [<- _].
  apply subscript_Return_inv in H1 as [H1 _].
  apply subscript_Return_inv in H5 as [H5 _].
  apply int_cell_Return_stat in H0, Ha, Hd, Hs, Hp.
  by exists c1, c5, hp, at_, de, sp, spd.
Qed.

(** X13.  Extraction returns a record exactly when the page is fetched, the
    [try] block goes through and the sibling cells 0 to 4 of the total cell
    all hold integers; the record then takes its name and classification
    from the info cells 1 and 5, its five statistics from those siblings in
    the order HP, attack, defense, special, speed (the sixth sibling is not
    read), its number from the requested ID and the rest from the [try]
    block. *)
Theorem extraction_succeeds_iff web poke_id data :
  extracts web poke_id data
  <-> exists soup found c1 c5,
        web (page_url poke_id) = Page soup
        /\ identify soup = ([], Return found)
        /\ center_panel_info found !! 1%nat = Some c1
        /\ center_panel_info found !! 5%nat = Some c5
        /\ stat found 0 = Some (hit_points data)
        /\ stat found 1 = Some (attack data)
        /\ stat found 2 = Some (defense data)
        /\ stat found 3 = Some (special data)
        /\ stat found 4 = Some (speed data)
        /\ name data = text (obj c1)
        /\ classification data = text (obj c5)
        /\ number data = "#" +:+ PyStr.zfill 3 (PyStr.str poke_id)
        /\ height data = id_height found
        /\ weight data = id_weight found
        /\ abilities data = id_abilities found
        /\ level_up_moves data = id_level_up_moves found
        /\ tm_hm_moves data = id_tm_hm_moves found
        /\ egg_moves data = id_egg_moves found.
Proof.
  split.
  - intros (soup & found & Hweb & Hid & Has)%extracts_inv.
    apply assemble_Return_inv in Has
      as (c1 & c5 & hp & at_ & de & sp & spd & H1 & H5 & H0 & Ha & Hd & Hs
          & Hp & ->).
    exists soup, found, c1, c5. simpl. repeat split; done.
  - intros (soup & found & c1 & c5 & Hweb & Hid & H1 & H5 & H0 & Ha & Hd & Hs
            & Hp & Hn & Hc & Hnum & Hh & Hw & Hab & Hl & Ht & He).
    unfold extracts. rewrite (extract_identified web _ _ _ Hweb Hid).
    rewrite (assemble_ok poke_id found c1 c5 _ _ _ _ _ H1 H5 H0 Ha Hd Hs Hp).
    simpl. f_equal. destruct data. simpl in *. by subst.
Qed.

Lemma extraction_of_the_samples :
  (exists data, extracts MorePages.web 1 data /\ hit_points data = 45)
  /\ (forall data, ~ extracts MorePages.web 18 data).
Proof.
  split.
  - destruct (snd (extract_statistics MorePages.web 1)) as [data| |] eqn:Hd;
      [|vm_compute in Hd; discriminate..].
    exists data. split; [exact Hd|].
    apply (extraction_succeeds_iff MorePages.web 1 data) in Hd
      as (soup & found & _ & _ & Hweb & Hid & _ & _ & H0 & _).
    vm_compute in Hweb. injection Hweb as <-.
    vm_compute in Hid. injection Hid as <-.
    vm_compute in H0. injection H0 as H0. symmetry. exact H0.
  - intros data Hd.
    apply (extraction_succeeds_iff MorePages.web 18 data) in Hd
      as (soup & found & _ & _ & Hweb & Hid & _ & _ & H0 & _).
    vm_compute in Hweb. injection Hweb as <-.
    vm_compute in Hid. injection Hid as <-.
    vm_compute in H0. discriminate.
Defined.

(** X14.  The number of a record comes from the request, never from the
    page: when two IDs are served the same page and one of them is
    extracted, so is the other, and the two records differ in their
    [number] only. *)
Theorem number_comes_from_the_request web (i j : Z) soup data :
  web (page_url i) = Page soup ->
  web (page_url j) = Page soup ->
  extracts web i data ->
  extracts web j
    {| name := name data;
       number := "#" +:+ PyStr.zfill 3 (PyStr.str j);
       classification := classification data;
       height := height data;
       weight := weight data;
       hit_points := hit_points data;
       abilities := abilities data;
       attack := attack data;
       defense := defense data;
       special := special data;
       speed := speed data;
       level_up_moves := level_up_moves data;
       tm_hm_moves := tm_hm_moves data;
       egg_moves := egg_moves data |}.
Proof.
  intros Hi Hj (soup2 & found & Hweb & Hid & Has)%extracts_inv.
  rewrite Hi in Hweb. injection Hweb as <-.
  apply assemble_Return_inv in Has
    as (c1 & c5 & hp & at_ & de & sp & spd & H1 & H5 & H0 & Ha & Hd & Hs
        & Hp & ->).
  unfold extracts. rewrite (extract_identified web _ _ _ Hj Hid).
  by rewrite (assemble_ok j found c1 c5 _ _ _ _ _ H1 H5 H0 Ha Hd Hs Hp).
Qed.

Lemma number_of_id_17 :
  exists data,
    extracts MorePages.web 1 data
    /\ number data = "#001"
    /\ extracts MorePages.web 17
         {| name := name data;
            number := "#" +:+ PyStr.zfill 3 (PyStr.str 17);
            classification := classification data;
            height := height data;
            weight := weight data;
            hit_points := hit_points data;
            abilities := abilities data;
            attack := attack data;
            defense := defense data;
            special := special data;
            speed := speed data;
            level_up_moves := level_up_moves data;
            tm_hm_moves := tm_hm_moves data;
            egg_moves := egg_moves data |}.
Proof.
  destruct (snd (extract_statistics MorePages.web 1)) as [data| |] eqn:Hd;
    [|vm_compute in Hd; discriminate..].
  exists data. split; [exact Hd|]. split.
  - vm_compute in Hd. injection Hd as <-. reflexivity.
  - apply (number_comes_from_the_request MorePages.web 1 17
             Samples.standard_page data); [reflexivity|reflexivity|exact Hd].
Defined.

(** ** Numbers and URLs of the supported IDs *)

Lemma supported_ids_checked :
  forallb
    (fun i =>
       bool_decide (id_of_url (page_url i) = Some i)
       && bool_decide
            (id_of_number ("#" +:+ PyStr.zfill 3 (PyStr.str i)) = Some i)
       && bool_decide
            (String.length ("#" +:+ PyStr.zfill 3 (PyStr.str i))
             = if i <? 1000 then 4%nat else 5%nat))
    (seqZ 0 1026) = true.
Proof. vm_compute. reflexivity. Qed.

(** X15.  For the IDs 0 to 1025 the page URL and the [number] field both
    give the ID back when the digits in them are read as an integer, so
    different IDs request different pages and get different numbers; the
    number is "#" and three digits for the IDs below 1000 and "#" and four
    digits from 1000 on. *)
Theorem number_and_url_identify_the_id (poke_id : Z) :
  0 <= poke_id < 1026 ->
  id_of_url (page_url poke_id) = Some poke_id
  /\ id_of_number ("#" +:+ PyStr.zfill 3 (PyStr.str poke_id)) = Some poke_id
  /\ String.length ("#" +:+ PyStr.zfill 3 (PyStr.str poke_id))
     = (if poke_id <? 1000 then 4%nat else 5%nat)
  /\ (forall other,
        0 <= other < 1026 ->
        page_url poke_id = page_url other
        \/ PyStr.zfill 3 (PyStr.str poke_id) = PyStr.zfill 3 (PyStr.str other) ->
        poke_id = other).
Proof.
  assert (Hall : forall i, 0 <= i < 1026 ->
            id_of_url (page_url i) = Some i
            /\ id_of_number ("#" +:+ PyStr.zfill 3 (PyStr.str i)) = Some i
            /\ String.length ("#" +:+ PyStr.zfill 3 (PyStr.str i))
               = (if i <? 1000 then 4%nat else 5%nat)).
  { intros i Hi. pose proof supported_ids_checked as H.
    rewrite forallb_forall in H.
    specialize (H i). rewrite !andb_true_iff, !bool_decide_eq_true in H.
    destruct H as [[? ?] ?]; [|done].
    apply list_elem_of_In, elem_of_seqZ. lia. }
  intros Hid. destruct (Hall poke_id Hid) as (Hu & Hn & Hl).
  repeat split; try done.
  intros other Ho [Heq|Heq]; destruct (Hall other Ho) as (Hu' & Hn' & _).
  - rewrite Heq, Hu' in Hu. by injection Hu.
  - rewrite Heq, Hn' in Hn. by injection Hn.
Qed.

Lemma number_and_url_of_id_25 :
  id_of_url (page_url 25) = Some 25
  /\ id_of_number ("#" +:+ PyStr.zfill 3 (PyStr.str 25)) = Some 25
  /\ String.length ("#" +:+ PyStr.zfill 3 (PyStr.str 25)) = 4%nat.
Proof.
  destruct (number_and_url_identify_the_id 25) as (H1 & H2 & H3 & _); [lia|].
  repeat split; assumption.
Defined.

(** ** The two layouts *)

(** X16.  The layout of the height cell decides for both fields.  When it
    holds no cell with the exact text "Standard", height and weight are the
    texts of the info cells 6 and 7 split on the legacy delimiter, whatever
    the weight cell looks like; when it holds one and the weight cell does
    not, the [try] block raises. *)
Theorem layout_is_decided_by_the_height_cell soup cpi cell6 cell7 :
  cpi !! 6%nat = Some cell6 ->
  cpi !! 7%nat = Some cell7 ->
  (find cell6 td_standard = None ->
   height_weight soup cpi
   = ([], Return (PyStr.split PyStr.legacy_delimiter (text (obj cell6)),
                  PyStr.split PyStr.legacy_delimiter (text (obj cell7)))))
  /\ (forall std6 next6,
        find cell6 td_standard = Some std6 ->
        find_next soup std6 (is_tag "td") = Some next6 ->
        find cell7 td_standard = None ->
        height_weight soup cpi = ([], Raise (AttributeError "findNext"))).
Proof.
  intros H6 H7. split.
  - intros Hnone. unfold height_weight.
    rewrite (subscript_Some _ _ _ H6), bind_ret_l. cbv beta zeta.
    rewrite (subscript_Some _ _ _ H7), bind_ret_l. cbv beta.
    by rewrite Hnone.
  - intros std6 next6 Hs6 Hn6 Hs7.
    rewrite (height_weight_standard soup cpi cell6 std6 H6 Hs6).
    rewrite (subscript_Some _ _ _ H7), bind_ret_l. cbv beta.
    rewrite (getattr_Some _ "text" _ Hn6), bind_ret_l. cbv beta.
    by rewrite Hs7.
Qed.

Lemma layouts_of_the_mixed_pages :
  height_weight MorePages.mixed_page_2
    (MorePages.info_cells MorePages.mixed_page_2)
  = ([], Return (["2'04" +:+ PyStr.quote; "0.7m"],
                 ["Standard15.2lbsMetric0.7m"]))
  /\ height_weight MorePages.mixed_page
       (MorePages.info_cells MorePages.mixed_page)
     = ([], Raise (AttributeError "findNext")).
Proof.
  split.
  - destruct (layout_is_decided_by_the_height_cell MorePages.mixed_page_2
                (MorePages.info_cells MorePages.mixed_page_2)
                (Samples.the (MorePages.info_cells MorePages.mixed_page_2
                              !! 6%nat))
                (Samples.the (MorePages.info_cells MorePages.mixed_page_2
                              !! 7%nat))) as [H _];
      [vm_compute; reflexivity..|].
    rewrite H; vm_compute; reflexivity.
  - destruct (layout_is_decided_by_the_height_cell MorePages.mixed_page
                (MorePages.info_cells MorePages.mixed_page)
                (Samples.the (MorePages.info_cells MorePages.mixed_page
                              !! 6%nat))
                (Samples.the (MorePages.info_cells MorePages.mixed_page
                              !! 7%nat))) as [_ H];
      [vm_compute; reflexivity..|].
    eapply H; vm_compute; reflexivity.
Defined.

Lemma replace_absent old new s :
  PyStr.contains old s = false -> PyStr.replace old new s = s.
Proof.
  unfold PyStr.replace. induction s as [|c s IH]; [done|].
  cbn [PyStr.contains PyStr.replace_go]. intros [Hp Hc]%orb_false_iff.
  by rewrite Hp, (IH Hc).
Qed.

(** X17.  In the Standard layout the weight is the text of the cell that
    follows the "Standard" cell of the weight cell, "lbs" replaced by "lbs "
    and the result split on spaces: the tokens hold no space and joined by
    spaces give that text back; a text without "lbs" is split as it is. *)
Theorem standard_weight_splits_after_lbs soup cpi cell6 std6 cell7 next6
  std7 next7 :
  cpi !! 6%nat = Some cell6 ->
  find cell6 td_standard = Some std6 ->
  cpi !! 7%nat = Some cell7 ->
  find_next soup std6 (is_tag "td") = Some next6 ->
  find cell7 td_standard = Some std7 ->
  find_next soup std7 (is_tag "td") = Some next7 ->
  exists h w,
    height_weight soup cpi = ([], Return (h, w))
    /\ PyStr.join " " w = PyStr.replace "lbs" "lbs " (text (obj next7))
    /\ Forall (fun t => PyStr.contains " " t = false) w
    /\ (PyStr.contains "lbs" (text (obj next7)) = false ->
        w = PyStr.split " " (text (obj next7))).
Proof.
  intros H6 Hs6 H7 Hn6 Hs7 Hn7.
  rewrite (height_weight_standard soup cpi cell6 std6 H6 Hs6).
  rewrite (subscript_Some _ _ _ H7), bind_ret_l. cbv beta.
  rewrite (getattr_Some _ "text" _ Hn6), bind_ret_l. cbv beta.
  rewrite (getattr_Some _ "findNext" _ Hs7), bind_ret_l. cbv beta.
  rewrite (getattr_Some _ "text" _ Hn7), bind_ret_l. cbv beta.
  eexists _, _. split; [reflexivity|].
  destruct (split_space_spec
              (PyStr.replace "lbs" "lbs " (text (obj next7)))) as [Hj Hf].
  repeat split; [done|done|]. intros Hno. by rewrite replace_absent.
Qed.

Lemma standard_weight_of_standard_page :
  exists h,
    height_weight Samples.standard_page Samples.standard_info
    = ([], Return (h, ["15.2lbs"; EmptyString])).
Proof.
  destruct (standard_weight_splits_after_lbs Samples.standard_page
              Samples.standard_info Samples.cell6 Samples.std6 Samples.cell7
              Samples.next6 Samples.std7 Samples.next7)
    as (h & w & H & _); [vm_compute; reflexivity..|].
  exists h. rewrite H. f_equal. f_equal. f_equal.
  vm_compute in H. by injection H as _ <-.
Defined.
